(** * SRF05 ultrasonic range finder: kernel driver and web service

    A shallow embedding of [srf05mod/src/srf05.c] (the kernel module that
    drives the sensor and publishes its state through sysfs) and of
    [srf05web/src/srf05web.c] (the user-space service that keeps the
    in-memory history, writes the daily CSV files and answers the two
    HTTP queries), followed by the properties of the specification that
    were checked against them. *)

From Stdlib Require Import ZArith Ascii String Lia.
From stdpp Require Import base option list gmap strings.

Local Open Scope Z_scope.

(** ** C text: characters, decimal conversions, the [printf] directives used *)

Module CText.

Definition NUL : ascii := "000"%char.
Definition LF : ascii := "010"%char.
Definition CR : ascii := "013"%char.
Definition DQ : ascii := "034"%char.

Definition str (c : ascii) : string := String c "".

(** [s] between double quotes. *)
Definition quoted (s : string) : string := str DQ +:+ s +:+ str DQ.

Definition code (c : ascii) : Z := Z.of_N (N_of_ascii c).

Definition isdigit (c : ascii) : bool := (48 <=? code c) && (code c <=? 57).

(** [isspace] in the C locale: space, and the controls 9 to 13. *)
Definition isspace (c : ascii) : bool :=
  (code c =? 32) || ((9 <=? code c) && (code c <=? 13)).

Definition digit_char (d : Z) : ascii := ascii_of_N (Z.to_N (48 + d)).
Definition digit_val (c : ascii) : Z := code c - 48.

(** The decimal digits of a non-negative number, most significant first.
    [fuel] bounds the number of digits. *)
Fixpoint udigits (fuel : nat) (n : Z) : string :=
  match fuel with
  | O => ""
  | S f => (if n <? 10 then "" else udigits f (n / 10)) +:+ str (digit_char (n mod 10))
  end.

(** [%lu] and [%u] of a non-negative value. *)
Definition fmt_u (n : Z) : string := udigits (S (Z.to_nat (Z.log2 n))) n.

(** [%d] and [%ld]. *)
Definition fmt_d (n : Z) : string :=
  if n <? 0 then "-" +:+ fmt_u (- n) else fmt_u n.

Fixpoint zeros (k : nat) : string :=
  match k with O => "" | S k' => String "0" (zeros k') end.

(** [%0wd]: the sign first, then zeros up to a total width of [w]. *)
Definition fmt_0d (w : nat) (n : Z) : string :=
  if n <? 0
  then "-" +:+ zeros (w - 1 - String.length (fmt_u (- n))) +:+ fmt_u (- n)
  else zeros (w - String.length (fmt_u n)) +:+ fmt_u n.

(** What [snprintf (buf, size, ...)] leaves in [buf] when the directives
    expand to [s]: at most [size - 1] characters (the terminator takes
    the last byte). Its return value is the length of [s] itself. *)
Definition snprintf (size : nat) (s : string) : string :=
  String.substring 0 (size - 1) s.

Fixpoint all_digits (s : string) : bool :=
  match s with
  | String c s' => isdigit c && all_digits s'
  | EmptyString => true
  end.

(** Exactly [k] characters, all of them digits. *)
Definition digits (k : nat) (s : string) : Prop :=
  String.length s = k /\ all_digits s = true.

(** The number of line feeds in [s]. *)
Fixpoint line_feeds (s : string) : nat :=
  match s with
  | String c s' => ((if Ascii.eqb c LF then 1 else 0) + line_feeds s')%nat
  | EmptyString => 0%nat
  end.

(** The digit loop of [strtol], base 10: stops at the first character that
    is not a digit. *)
Fixpoint strtol_digits (acc : Z) (s : string) : Z :=
  match s with
  | String c s' =>
      if isdigit c then strtol_digits (acc * 10 + digit_val c) s' else acc
  | EmptyString => acc
  end.

Fixpoint skip_space (s : string) : string :=
  match s with
  | String c s' => if isspace c then skip_space s' else s
  | EmptyString => s
  end.

Section Long.
(** Width of [long] and [unsigned long] on the target, in bits. *)
Variable long_bits : Z.

Definition LONG_MAX : Z := 2 ^ (long_bits - 1) - 1.
Definition LONG_MIN : Z := - 2 ^ (long_bits - 1).
Definition ULONG_MODULUS : Z := 2 ^ long_bits.

(** Conversion of a signed value to [unsigned long]. *)
Definition to_ulong (z : Z) : Z := z mod ULONG_MODULUS.

(** [atol]: leading white space, an optional sign, the digits. A value
    that does not fit is clamped, as the [strtol] behind it does. *)
Definition atol (s : string) : Z :=
  let s := skip_space s in
  let v :=
    match s with
    | String "-" s' => - strtol_digits 0 s'
    | String "+" s' => strtol_digits 0 s'
    | _ => strtol_digits 0 s
    end in
  Z.max LONG_MIN (Z.min LONG_MAX v).
End Long.

(** [fgets (buf, n, file)] on a stream positioned at the start of
    [content]: the characters it reads, at most [n] of them, up to and
    including the first newline. *)
Fixpoint read_line (n : nat) (content : string) : string :=
  match n, content with
  | S n', String c rest =>
      if Ascii.eqb c LF then str c else String c (read_line n' rest)
  | _, _ => ""
  end.

End CText.

(** ** The kernel module, [srf05.c] *)

Module Srf05Mod.
Import CText.

Definition MEASURE_START_TIMEOUT : Z := 25000.
Definition MEASURE_XMIT_TIMEOUT : Z := 100000.

(** The module's variables: the parameters and the published state. *)
Record module_state := {
  srf05_gpio : Z;
  srf05_cmdiv : Z;
  srf05_updiv : Z;
  distance : Z;   (* last distance measured, raw, [unsigned long] *)
  status : Z      (* 0 - OPERATIONAL, 1 - ERROR *)
}.

Definition set_status (v : Z) (m : module_state) : module_state :=
  {| srf05_gpio := srf05_gpio m; srf05_cmdiv := srf05_cmdiv m;
     srf05_updiv := srf05_updiv m; distance := distance m; status := v |}.

Definition set_distance (v : Z) (m : module_state) : module_state :=
  {| srf05_gpio := srf05_gpio m; srf05_cmdiv := srf05_cmdiv m;
     srf05_updiv := srf05_updiv m; distance := v; status := status m |}.

(** The module as loaded with its default parameters. *)
Definition module_init : module_state :=
  {| srf05_gpio := 20; srf05_cmdiv := 450; srf05_updiv := 20;
     distance := 0; status := 0 |}.

(** The data line as the driver sees it during one call of [measure]:
    [gpio k] is what the [k]-th call of [gpio_get_value] returns, counted
    from the moment the line is switched to input. *)
Definition line := nat -> Z.

(** [while (gpio_get_value (srf05_gpio) == level && t < timeout) t++;]

    [k] counts the reads of the line made so far and [t] is the tick
    counter. The result is the pair of both when the loop is left; the
    read that ends the loop is consumed. [None] when [fuel] evaluations
    of the condition do not suffice. *)
Fixpoint busy_poll (fuel : nat) (gpio : line) (level timeout : Z)
         (k : nat) (t : Z) : option (nat * Z) :=
  match fuel with
  | O => None
  | S fuel' =>
      if (gpio k =? level) && (t <? timeout)
      then busy_poll fuel' gpio level timeout (S k) (t + 1)
      else Some (S k, t)
  end.

(** Evaluations of the loop condition that always suffice for a loop that
    starts at tick 0. *)
Definition poll_fuel (timeout : Z) : nat := S (Z.to_nat timeout).

(** [measure]. The trigger pulse (output high, 20 us, low, switch to
    input) comes before the first read and does not touch the module's
    variables. *)
Definition measure (gpio : line) (m : module_state) : option module_state :=
  match busy_poll (poll_fuel MEASURE_START_TIMEOUT) gpio 0 MEASURE_START_TIMEOUT 0%nat 0 with
  | None => None
  | Some (k, t) =>
      if t >=? MEASURE_START_TIMEOUT then Some (set_status 1 m)
      else
        match busy_poll (poll_fuel MEASURE_XMIT_TIMEOUT) gpio 1 MEASURE_XMIT_TIMEOUT k 0 with
        | None => None
        | Some (_, t) =>
            if t >=? MEASURE_XMIT_TIMEOUT then Some (set_status 1 m)
            else Some (set_distance t (set_status 0 m))
        end
  end.

(** The states the module's variables can be in: those of a freshly
    loaded module, whatever its parameters (each an [int]), and those
    [measure] leaves. *)
Inductive reachable : module_state -> Prop :=
| reachable_init (gpio_no cmdiv updiv : Z) :
    - 2 ^ 31 <= cmdiv < 2 ^ 31 ->
    reachable {| srf05_gpio := gpio_no; srf05_cmdiv := cmdiv;
                 srf05_updiv := updiv; distance := 0; status := 0 |}
| reachable_measure (gpio : line) (m m' : module_state) :
    reachable m -> measure gpio m = Some m' -> reachable m'.

(** *** What the line does during a call, in the words of the protocol *)

(** The line is still low at each of the [MEASURE_START_TIMEOUT] polls of
    the echo-start wait. *)
Definition start_timed_out (gpio : line) : Prop :=
  forall i : nat, Z.of_nat i < MEASURE_START_TIMEOUT -> gpio i = 0.

(** The line is first seen high at read [k], within the budget. *)
Definition echo_starts_at (gpio : line) (k : nat) : Prop :=
  Z.of_nat k < MEASURE_START_TIMEOUT /\ gpio k <> 0 /\
  forall i : nat, (i < k)%nat -> gpio i = 0.

(** After the echo started at read [k], the line is still high at each of
    the [MEASURE_XMIT_TIMEOUT] polls of the echo-width wait. *)
Definition width_timed_out (gpio : line) (k : nat) : Prop :=
  forall j : nat, Z.of_nat j < MEASURE_XMIT_TIMEOUT -> gpio (S k + j)%nat = 1.

(** After the echo started at read [k], the line is seen high [t] times
    and then low, within the budget. *)
Definition echo_ends_after (gpio : line) (k t : nat) : Prop :=
  Z.of_nat t < MEASURE_XMIT_TIMEOUT /\ gpio (S k + t)%nat <> 1 /\
  forall j : nat, (j < t)%nat -> gpio (S k + j)%nat = 1.

(** One of the two waits runs out of its budget. *)
Definition timed_out (gpio : line) : Prop :=
  start_timed_out gpio \/
  exists k, echo_starts_at gpio k /\ width_timed_out gpio k.

(** The echo-width wait ends in time with a tick count of [t]. *)
Definition echo_width (gpio : line) (t : Z) : Prop :=
  exists k n, echo_starts_at gpio k /\ echo_ends_after gpio k n /\ t = Z.of_nat n.

(** A line for examples: low at three reads, high at the next six, then
    low again. *)
Definition example_line : line :=
  fun k => if (k <? 3)%nat then 0 else if (k <? 10)%nat then 1 else 0.

(** The attribute [attr] of the kobject "srf05" under [kernel_kobj]. *)
Definition sysfs_path (attr : string) : string := "/sys/kernel/srf05/" +:+ attr.

Section Sysfs.
Variable long_bits : Z.

(** [sprintf (buf, "%lu\n", distance)] *)
Definition sysfs_distance_raw_show (m : module_state) : string :=
  fmt_u (distance m) +:+ str LF.

(** [sprintf (buf, "%lu\n", distance / srf05_cmdiv)]: the divisor, an
    [int], is converted to [unsigned long] for the division. [None] is
    the division by zero. *)
Definition sysfs_distance_cm_show (m : module_state) : option string :=
  let d := to_ulong long_bits (srf05_cmdiv m) in
  if d =? 0 then None
  else Some (fmt_u (distance m / d) +:+ str LF).

(** [sprintf (buf, "%s\n", (status == 1 ? "ERROR" : "OPERATIONAL"))] *)
Definition sysfs_status_show (m : module_state) : string :=
  (if status m =? 1 then "ERROR" else "OPERATIONAL") +:+ str LF.

(** The files of [attr_group] as they read while the module is in state
    [m]. [None] when a read of them divides by zero. *)
Definition sysfs_files (m : module_state) : option (gmap string string) :=
  cm ← sysfs_distance_cm_show m;
  Some (<[sysfs_path "distance_raw" := sysfs_distance_raw_show m]>
        (<[sysfs_path "distance_cm" := cm]>
         (<[sysfs_path "status" := sysfs_status_show m]> ∅))).
End Sysfs.

End Srf05Mod.

(** ** The web service, [srf05web.c] *)

Module Srf05Web.
Import CText.

Definition DOC_ROOT : string := "/opt/app/html".
Definition HISTORY_FILE_PATH : string := "/opt/app/html/history".
Definition HISTORY_INTERVAL : Z := 3600.
Definition HTTP_PORT : string := "80".
Definition DATA_FILE_PREFIX : string := "/sys/kernel/srf05/distance_".
Definition STATUS_FILE : string := "/sys/kernel/srf05/status".
Definition MAX_HISTORY : Z := 48.

(** *** Faults

    What C leaves undefined and the code can run into: a [NULL] stream
    handed to [fprintf], an access outside an array. *)
Inductive fault := NullStream | OutOfBounds.

Inductive result (A : Type) :=
| Ok (a : A)
| Fault (f : fault).
Arguments Ok {A} a.
Arguments Fault {A} f.

#[global] Instance result_ret : MRet result := fun A a => Ok a.
#[global] Instance result_bind : MBind result := fun A B k r =>
  match r with
  | Ok a => k a
  | Fault f => Fault f
  end.

(** *** Character buffers *)

Abbreviation buffer := (list ascii).

(** [buf[i] = c] *)
Definition poke (buf : buffer) (i : Z) (c : ascii) : result buffer :=
  if (0 <=? i) && (i <? Z.of_nat (length buf))
  then Ok (<[Z.to_nat i := c]> buf)
  else Fault OutOfBounds.

(** Copy of [src] to the start of [buf]. *)
Definition blit (buf : buffer) (src : list ascii) : result buffer :=
  if decide (length src ≤ length buf)%nat
  then Ok (src ++ drop (length src) buf)
  else Fault OutOfBounds.

(** Offset of the first NUL of [buf], from [i] on. *)
Fixpoint find_nul (buf : buffer) (i : Z) : result Z :=
  match buf with
  | [] => Fault OutOfBounds
  | c :: buf' => if Ascii.eqb c NUL then Ok i else find_nul buf' (i + 1)
  end.

Definition strlen (buf : buffer) : result Z := find_nul buf 0.

(** The characters before the first NUL. *)
Fixpoint until_nul (buf : buffer) : string :=
  match buf with
  | [] => ""
  | c :: buf' => if Ascii.eqb c NUL then "" else String c (until_nul buf')
  end.

(** The C string held in [buf], as [strcmp] and [%s] read it. *)
Definition c_string (buf : buffer) : result string :=
  _ ← strlen buf; Ok (until_nul buf).

(** [strncpy (buf, src, n)]: exactly [n] bytes are written, the
    characters of [src] and then NULs. *)
Definition strncpy (buf : buffer) (src : string) (n : Z) : result buffer :=
  let k := Z.to_nat n in
  blit buf (take k (list_ascii_of_string src ++ replicate k NUL)).

(** [fgets (buf, n, file)] on a freshly opened file holding [content].
    Nothing is stored when no character could be read. *)
Definition fgets (buf : buffer) (n : Z) (content : string) : result buffer :=
  if n <=? 0 then Ok buf
  else
    match read_line (Z.to_nat (n - 1)) content with
    | "" => if n =? 1 then poke buf 0 NUL else Ok buf
    | line => blit buf (list_ascii_of_string line ++ [NUL])
    end.

(** *** The process environment *)

Record world := {
  files : gmap string string;  (* the files that exist, with their contents *)
  locked : gset string;        (* paths that cannot be opened for appending *)
  now : Z;                     (* what [time] returns *)
  stack : nat -> ascii;        (* what an uninitialised [char] array holds *)
  console : string             (* standard output so far *)
}.

Definition set_files (f : gmap string string) (w : world) : world :=
  {| files := f; locked := locked w; now := now w; stack := stack w;
     console := console w |}.

Definition printf (s : string) (w : world) : world :=
  {| files := files w; locked := locked w; now := now w; stack := stack w;
     console := console w +:+ s |}.

(** [char buf[n];] without initialiser. *)
Definition uninitialised (w : world) (n : nat) : buffer :=
  stack w <$> seq 0 n.

(** [fopen (path, "r")]: the contents of the file, [None] for [NULL]. *)
Definition fopen_r (w : world) (path : string) : option string :=
  files w !! path.

(** [fopen (path, "a+")]: the file is created when it does not exist.
    The stream is named by its path; [None] stands for [NULL]. *)
Definition fopen_a (w : world) (path : string) : world * option string :=
  if decide (path ∈ locked w) then (w, None)
  else
    match files w !! path with
    | Some _ => (w, Some path)
    | None => (set_files (<[path := ""]> (files w)) w, Some path)
    end.

(** [fprintf (file, ...)] on a stream opened by [fopen_a], where the
    directives expand to [s]; the text goes to the end of the file. *)
Definition fprintf (w : world) (file : option string) (s : string)
  : world * result unit :=
  match file with
  | None => (w, Fault NullStream)
  | Some path =>
      (set_files (<[path := default "" (files w !! path) +:+ s]> (files w)) w, Ok ())
  end.

(** *** The in-memory history *)

Record history_entry := {
  ts : Z;     (* timestamp *)
  dcm : Z;    (* distance in cm *)
  draw : Z;   (* distance, raw value *)
  stat : Z    (* 0 - ERROR, 1 - OPERATIONAL *)
}.

Record history_table := {
  entries : list history_entry;
  size : Z;    (* maximum size of the history array *)
  curr : Z;    (* index of the most current entry *)
  count : Z    (* current number of entries *)
}.

Definition zero_entry : history_entry :=
  {| ts := 0; dcm := 0; draw := 0; stat := 0 |}.

(** A table of [n] slots as the static initialiser leaves it. *)
Definition history_of_capacity (n : Z) : history_table :=
  {| entries := replicate (Z.to_nat n) zero_entry;
     size := n; curr := -1; count := 0 |}.

(** The global [history]. *)
Definition history : history_table := history_of_capacity MAX_HISTORY.

Definition set_curr (v : Z) (h : history_table) : history_table :=
  {| entries := entries h; size := size h; curr := v; count := count h |}.

Definition set_count (v : Z) (h : history_table) : history_table :=
  {| entries := entries h; size := size h; curr := curr h; count := v |}.

(** [history.entries[pos]] read. *)
Definition entry_at (h : history_table) (pos : Z) : result history_entry :=
  if pos <? 0 then Fault OutOfBounds
  else
    match entries h !! Z.to_nat pos with
    | Some e => Ok e
    | None => Fault OutOfBounds
    end.

(** [history.entries[pos].field = ...], as the change [f] of the entry. *)
Definition update_entry (pos : Z) (f : history_entry -> history_entry)
           (h : history_table) : result history_table :=
  e ← entry_at h pos;
  Ok {| entries := <[Z.to_nat pos := f e]> (entries h);
        size := size h; curr := curr h; count := count h |}.

Definition with_ts (v : Z) (e : history_entry) : history_entry :=
  {| ts := v; dcm := dcm e; draw := draw e; stat := stat e |}.
Definition with_dcm (v : Z) (e : history_entry) : history_entry :=
  {| ts := ts e; dcm := v; draw := draw e; stat := stat e |}.
Definition with_draw (v : Z) (e : history_entry) : history_entry :=
  {| ts := ts e; dcm := dcm e; draw := v; stat := stat e |}.
Definition with_stat (v : Z) (e : history_entry) : history_entry :=
  {| ts := ts e; dcm := dcm e; draw := draw e; stat := v |}.

(** The slot of the [j]-th newest entry ([j = 0] for the newest) once
    [len] entries were added to a table of [n] slots. *)
Definition slot (n len j : Z) : Z := (len - 1 - j) mod n.

(** A table of [n] slots that holds the entries [rs], added in this
    order to an empty table. *)
Record holds (n : Z) (rs : list history_entry) (h : history_table) : Prop := {
  holds_size : size h = n;
  holds_length : Z.of_nat (length (entries h)) = n;
  holds_count : count h = Z.min (Z.of_nat (length rs)) n;
  holds_curr :
    curr h = if decide (rs = []) then -1 else slot n (Z.of_nat (length rs)) 0;
  holds_slots :
    forall j : nat,
      Z.of_nat j < count h ->
      entries h !! Z.to_nat (slot n (Z.of_nat (length rs)) (Z.of_nat j))
      = rev rs !! j
}.

(** *** Calendar time *)

Record tm := {
  tm_sec : Z; tm_min : Z; tm_hour : Z;
  tm_mday : Z; tm_mon : Z; tm_year : Z
}.

(** The fields of a calendar date of the years 0 to 9999, as [localtime]
    fills them in. *)
Definition calendar (lt : tm) : Prop :=
  0 <= tm_year lt + 1900 <= 9999 /\ 0 <= tm_mon lt <= 11 /\ 1 <= tm_mday lt <= 31
  /\ 0 <= tm_hour lt <= 23 /\ 0 <= tm_min lt <= 59 /\ 0 <= tm_sec lt <= 60.

(** ["%04d-%02d-%02d"] of year, month and day. *)
Definition date_text (lt : tm) : string :=
  fmt_0d 4 (tm_year lt + 1900) +:+ "-" +:+ fmt_0d 2 (tm_mon lt + 1)
    +:+ "-" +:+ fmt_0d 2 (tm_mday lt).

(** ["%02d:%02d:%02d"] of hour, minute and second. *)
Definition time_text (lt : tm) : string :=
  fmt_0d 2 (tm_hour lt) +:+ ":" +:+ fmt_0d 2 (tm_min lt)
    +:+ ":" +:+ fmt_0d 2 (tm_sec lt).

(** [(history.entries[pos].stat == 0 ? "ERROR" : "OPERATIONAL")] *)
Definition stat_label (e : history_entry) : string :=
  if stat e =? 0 then "ERROR" else "OPERATIONAL".

(** The directives of [dump_history]'s file name, expanded. *)
Definition history_file_text (lt : tm) : string :=
  HISTORY_FILE_PATH +:+ "/" +:+ date_text lt +:+ ".csv".

Definition history_file_name (lt : tm) : string :=
  snprintf 256 (history_file_text lt).

(** The line [dump_history] prints for an entry. *)
Definition csv_line (lt : tm) (e : history_entry) : string :=
  quoted (date_text lt) +:+ "," +:+ quoted (time_text lt) +:+ ","
    +:+ quoted (stat_label e) +:+ "," +:+ fmt_d (dcm e) +:+ ","
    +:+ fmt_d (draw e) +:+ str LF.

(** The directives of the handler's [histline], expanded. *)
Definition history_line_text (first : bool) (lt : tm) (e : history_entry) : string :=
  (if first then "" else ", ")
    +:+ "{" +:+ quoted "date" +:+ " : " +:+ quoted (date_text lt)
    +:+ ", " +:+ quoted "time" +:+ " : " +:+ quoted (time_text lt)
    +:+ ", " +:+ quoted "distance_raw" +:+ " : " +:+ fmt_d (draw e)
    +:+ ", " +:+ quoted "distance_cm" +:+ " : " +:+ fmt_d (dcm e)
    +:+ ", " +:+ quoted "status" +:+ " : " +:+ quoted (stat_label e)
    +:+ "}".

(** The text [snprintf] builds in [histline] for one entry. *)
Definition history_line (first : bool) (lt : tm) (e : history_entry) : string :=
  snprintf 128 (history_line_text first lt e).

(** The directives of the latest-value reply, expanded. *)
Definition latest_text (raw cm : Z) (status : string) : string :=
  "{" +:+ quoted "distance_raw" +:+ " : " +:+ fmt_d raw
      +:+ ", " +:+ quoted "distance_cm" +:+ " : " +:+ fmt_d cm
      +:+ ", " +:+ quoted "status" +:+ " : " +:+ quoted status +:+ "}".

(** [mg_printf] of the reply. *)
Definition http_reply (content_length : Z) (content : string) : string :=
  "HTTP/1.1 200 OK" +:+ str CR +:+ str LF
    +:+ "Content-Type: text/plain" +:+ str CR +:+ str LF
    +:+ "Content-Length: " +:+ fmt_d content_length +:+ str CR +:+ str LF
    +:+ str CR +:+ str LF
    +:+ content.

(** What the handler returns and what it sent on the connection. *)
Record handled := { returned : Z; sent : string }.

(** *** Reading the sensor through sysfs *)

(** [srf05_read_status] on the caller's buffer [status] of [len] bytes. *)
Definition srf05_read_status (w : world) (status : buffer) (len : Z)
  : result buffer :=
  match fopen_r w STATUS_FILE with
  | None => strncpy status "UNKNOWN" len
  | Some content =>
      status ← fgets status len content;
      n ← strlen status;
      poke status (n - 1) NUL
  end.

(** The index [srf05_read_status] writes its NUL to once the status file
    is open and holds [content]: [strlen (status) - 1]. *)
Definition status_write_index (status : buffer) (len : Z) (content : string)
  : result Z :=
  status ← fgets status len content;
  n ← strlen status;
  Ok (n - 1).

Section Service.
Variable long_bits : Z.

(** [localtime]: it depends on the time zone of the process. *)
Variable localtime : Z -> tm.

(** [srf05_read_distance]. A NUL inside the line ends the digits like
    any other character that is not a digit. *)
Definition srf05_read_distance (w : world) (unit : string) : Z :=
  let data_file := snprintf 128 (DATA_FILE_PREFIX +:+ unit) in
  match fopen_r w data_file with
  | None => -1
  | Some content =>
      let data :=
        match read_line 31 content with
        | "" => "-1"          (* [fgets] stored nothing: the initialiser *)
        | line => line
        end in
      atol long_bits data
  end.

(** [add_history] *)
Definition add_history (w : world) (h : history_table) : result history_table :=
  let pos := curr h + 1 in
  let '(pos, h) :=
    if pos >=? size h then (0, set_curr (-1) h) else (pos, h) in
  let h := if count h <? size h then set_count (count h + 1) h else h in
  h ← update_entry pos (with_ts (now w)) h;
  h ← update_entry pos (with_dcm (srf05_read_distance w "cm")) h;
  h ← update_entry pos (with_draw (srf05_read_distance w "raw")) h;
  status ← srf05_read_status w (uninitialised w 32) 32;
  status ← c_string status;
  h ← update_entry pos
        (with_stat (if String.eqb status "OPERATIONAL" then 1 else 0)) h;
  Ok (set_curr (curr h + 1) h).

(** The reading [add_history] takes from the environment [w]: the entry
    it leaves in the slot it writes. *)
Definition reading (w : world) : result history_entry :=
  status ← srf05_read_status w (uninitialised w 32) 32;
  status ← c_string status;
  Ok {| ts := now w;
        dcm := srf05_read_distance w "cm";
        draw := srf05_read_distance w "raw";
        stat := if String.eqb status "OPERATIONAL" then 1 else 0 |}.



(** [dump_history]. After the message about a file that could not be
    opened the function goes on to [fprintf]. *)
Definition dump_history (w : world) (h : history_table) : world * result unit :=
  let pos := curr h in
  match entry_at h pos with
  | Fault f => (w, Fault f)
  | Ok e =>
      let lt := localtime (ts e) in
      let file_name := history_file_name lt in
      let '(w, file) := fopen_a w file_name in
      let w :=
        match file with
        | None =>
            printf ("ERROR: unable to open history file " +:+ file_name +:+ str LF) w
        | Some _ => w
        end in
      fprintf w file (csv_line lt e)
  end.

(** One firing of the main loop: [add_history (); dump_history ();]. *)
Definition history_tick (w : world) (h : history_table)
  : world * result history_table :=
  match add_history w h with
  | Fault f => (w, Fault f)
  | Ok h' =>
      match dump_history w h' with
      | (w', Ok _) => (w', Ok h')
      | (w', Fault f) => (w', Fault f)
      end
  end.

(** The loop over the history, [n] iterations to go. Besides [content]
    it returns the entries it visited, in the order of the visits. *)
Fixpoint history_loop (n : nat) (h : history_table) (pos : Z) (first : bool)
         (content : string) (seen : list history_entry)
  : result (string * list history_entry) :=
  match n with
  | O => Ok (content, seen)
  | S n' =>
      e ← entry_at h pos;
      let histline := history_line first (localtime (ts e)) e in
      let content := content +:+ histline in
      let pos := if pos - 1 <? 0 then size h - 1 else pos - 1 in
      history_loop n' h pos false content (seen ++ [e])
  end.

(** The lines of the entries [es], the first of them without the
    separating comma when [first] is set. *)
Fixpoint history_lines (first : bool) (es : list history_entry) : string :=
  match es with
  | [] => ""
  | e :: es' =>
      history_line first (localtime (ts e)) e +:+ history_lines false es'
  end.

(** The entries of the history as the handler walks them: from
    [history.curr] backwards, [history.count] of them. *)
Definition snapshot_newest_first (h : history_table) : result (list history_entry) :=
  r ← history_loop (Z.to_nat (count h)) h (curr h) true "" []; Ok (snd r).

(** [begin_request_handler] for a request of [uri]. *)
Definition begin_request_handler (w : world) (h : history_table) (uri : string)
  : result handled :=
  if String.eqb uri "/sensor/srf05" then
    status ← srf05_read_status w (uninitialised w 32) 32;
    status ← c_string status;
    let text :=
      latest_text (srf05_read_distance w "raw") (srf05_read_distance w "cm") status in
    let content := snprintf (Z.to_nat (MAX_HISTORY * 128)) text in
    let content_length := Z.of_nat (String.length text) in
    Ok {| returned := 1; sent := http_reply content_length content |}
  else if String.eqb uri "/sensor/srf05/history" then
    let content := "{ " +:+ quoted "history" +:+ " : [ " in
    r ← history_loop (Z.to_nat (count h)) h (curr h) true content [];
    let content := fst r +:+ "] }" in
    let content_length := Z.of_nat (String.length content) in
    Ok {| returned := 1; sent := http_reply content_length content |}
  else Ok {| returned := 0; sent := "" |}.
End Service.
End Srf05Web.

(** ** The sysfs boundary between the module and the service *)

Module Bridge.
Import CText Srf05Mod Srf05Web.

(** The service runs in [w] while the module is in state [m]: the three
    attributes exist and read as the module shows them. *)
Definition publishes (long_bits : Z) (m : module_state) (w : world) : Prop :=
  exists fs, sysfs_files long_bits m = Some fs /\ fs ⊆ files w.

(** An environment with the files [fs], all of them writable, at time [t]. *)
Definition world_of (fs : gmap string string) (t : Z) : world :=
  {| files := fs; locked := ∅; now := t; stack := fun _ => "x"%char; console := "" |}.

(** The environment at time [t] of a service beside a module in state [m]. *)
Definition sensor_world (long_bits : Z) (m : module_state) (t : Z) : world :=
  world_of (default ∅ (sysfs_files long_bits m)) t.

(** The same without the module loaded: no attribute can be opened. *)
Definition bare_world (t : Z) : world := world_of ∅ t.

(** An environment in which only the raw distance can be read, as 900. *)
Definition raw_only_world (t : Z) : world :=
  world_of {[sysfs_path "distance_raw" := "900" +:+ str LF]} t.


(** A [localtime] for examples: 9 November 2012, 13:05, and the seconds
    of the time stamp. *)
Definition example_localtime (t : Z) : tm :=
  {| tm_sec := t mod 60; tm_min := 5; tm_hour := 13;
     tm_mday := 9; tm_mon := 10; tm_year := 112 |}.

(** The history file of that day. *)
Definition example_file : string := "/opt/app/html/history/2012-11-09.csv".

(** A reading of that day, and a table that holds just it. *)
Definition example_entry : history_entry :=
  {| ts := 1352466307; dcm := 2; draw := 900; stat := 1 |}.

Definition example_table : history_table :=
  {| entries := [example_entry]; size := 1; curr := 0; count := 1 |}.

(** An environment in which the history file of the day cannot be opened. *)
Definition locked_world (t : Z) : world :=
  {| files := ∅; locked := {[example_file]}; now := t;
     stack := fun _ => "x"%char; console := "" |}.
End Bridge.

(** ** JSON texts, to the extent the replies use them *)

Module Json.
Import CText.

Inductive token :=
| TBeginObject | TEndObject | TBeginArray | TEndArray | TColon | TComma
| TString (s : string)
| TLiteral (s : string).

#[warnings="-register-all"]
Inductive value :=
| Literal (s : string)                 (* a number, [true], [false] or [null], as written *)
| Text (s : string)
| Array (items : list value)
| Object (members : list (string * value)).

(** Insignificant white space: space, tab, line feed, carriage return. *)
Definition is_ws (c : ascii) : bool :=
  (code c =? 32) || (code c =? 9) || (code c =? 10) || (code c =? 13).

Definition is_punct (c : ascii) : bool :=
  (code c =? 123) || (code c =? 125) || (code c =? 91) || (code c =? 93)
  || (code c =? 58) || (code c =? 44) || (code c =? 34).

(** The body of a string up to its closing quote, and what follows it. *)
Fixpoint lex_string (s : string) : option (string * string) :=
  match s with
  | EmptyString => None
  | String c s' =>
      if Ascii.eqb c DQ then Some ("", s')
      else if Ascii.eqb c "\" then
        match s' with
        | EmptyString => None
        | String d s'' =>
            match lex_string s'' with
            | Some (body, rest) => Some (String c (String d body), rest)
            | None => None
            end
        end
      else
        match lex_string s' with
        | Some (body, rest) => Some (String c body, rest)
        | None => None
        end
  end.

(** A run of characters that are neither white space nor punctuation. *)
Fixpoint lex_literal (s : string) : string * string :=
  match s with
  | EmptyString => ("", "")
  | String c s' =>
      if is_ws c || is_punct c then ("", s)
      else let '(body, rest) := lex_literal s' in (String c body, rest)
  end.

Fixpoint lex (fuel : nat) (s : string) : option (list token) :=
  match fuel with
  | O => None
  | S fuel' =>
      match s with
      | EmptyString => Some []
      | String c s' =>
          if is_ws c then lex fuel' s'
          else if Ascii.eqb c "{" then cons TBeginObject <$> lex fuel' s'
          else if Ascii.eqb c "}" then cons TEndObject <$> lex fuel' s'
          else if Ascii.eqb c "[" then cons TBeginArray <$> lex fuel' s'
          else if Ascii.eqb c "]" then cons TEndArray <$> lex fuel' s'
          else if Ascii.eqb c ":" then cons TColon <$> lex fuel' s'
          else if Ascii.eqb c "," then cons TComma <$> lex fuel' s'
          else if Ascii.eqb c DQ then
            match lex_string s' with
            | Some (body, rest) => cons (TString body) <$> lex fuel' rest
            | None => None
            end
          else
            let '(body, rest) := lex_literal s in
            cons (TLiteral body) <$> lex fuel' rest
      end
  end.

(** The literals accepted: integers, [true], [false], [null]. *)
Definition is_literal (s : string) : bool :=
  match s with
  | "true" | "false" | "null" => true
  | String "-" (String c s') => all_digits (String c s')
  | String c s' => all_digits (String c s')
  | EmptyString => false
  end.

(** One value at the head of the tokens, and the tokens after it. *)
Fixpoint parse_value (fuel : nat) (ts : list token) : option (value * list token) :=
  match fuel with
  | O => None
  | S fuel' =>
      match ts with
      | TLiteral s :: ts' => if is_literal s then Some (Literal s, ts') else None
      | TString s :: ts' => Some (Text s, ts')
      | TBeginArray :: TEndArray :: ts' => Some (Array [], ts')
      | TBeginArray :: ts' =>
          '(items, ts'') ← parse_items fuel' ts'; Some (Array items, ts'')
      | TBeginObject :: TEndObject :: ts' => Some (Object [], ts')
      | TBeginObject :: ts' =>
          '(members, ts'') ← parse_members fuel' ts'; Some (Object members, ts'')
      | _ => None
      end
  end
with parse_items (fuel : nat) (ts : list token) : option (list value * list token) :=
  match fuel with
  | O => None
  | S fuel' =>
      '(v, ts') ← parse_value fuel' ts;
      match ts' with
      | TEndArray :: ts'' => Some ([v], ts'')
      | TComma :: ts'' =>
          '(vs, ts''') ← parse_items fuel' ts''; Some (v :: vs, ts''')
      | _ => None
      end
  end
with parse_members (fuel : nat) (ts : list token)
     : option (list (string * value) * list token) :=
  match fuel with
  | O => None
  | S fuel' =>
      match ts with
      | TString k :: TColon :: ts' =>
          '(v, ts'') ← parse_value fuel' ts';
          match ts'' with
          | TEndObject :: ts''' => Some ([(k, v)], ts''')
          | TComma :: ts''' =>
              '(ms, ts'''') ← parse_members fuel' ts'''; Some ((k, v) :: ms, ts'''')
          | _ => None
          end
      | _ => None
      end
  end.

(** The document a text denotes; [None] when it is not well formed. *)
Definition parse (s : string) : option value :=
  ts ← lex (S (String.length s)) s;
  match parse_value (S (length ts)) ts with
  | Some (v, []) => Some v
  | _ => None
  end.
End Json.

(** ** The module's life cycle: timer, init and exit, [srf05.c] *)

Module Srf05Life.
Import CText Srf05Mod.

(** What the module holds of the kernel, and what it logged. *)
Record kernel := {
  kobject : bool;               (* [srf05_kobj] is registered under [kernel_kobj] *)
  attributes : bool;            (* the files of [attr_group] exist *)
  gpio_requested : bool;        (* the data line is requested *)
  timer_expires : option Z;     (* [measure_timer] is pending, and when it fires *)
  klog : string                 (* the [printk] messages so far *)
}.

(** Nothing held, nothing logged. *)
Definition unloaded : kernel :=
  {| kobject := false; attributes := false; gpio_requested := false;
     timer_expires := None; klog := "" |}.

Definition printk (s : string) (k : kernel) : kernel :=
  {| kobject := kobject k; attributes := attributes k;
     gpio_requested := gpio_requested k; timer_expires := timer_expires k;
     klog := klog k +:+ s |}.

(** [kobject_create_and_add], when it succeeds. *)
Definition kobject_add (k : kernel) : kernel :=
  {| kobject := true; attributes := attributes k;
     gpio_requested := gpio_requested k; timer_expires := timer_expires k;
     klog := klog k |}.

(** [sysfs_create_group], when it succeeds. *)
Definition create_group (k : kernel) : kernel :=
  {| kobject := kobject k; attributes := true;
     gpio_requested := gpio_requested k; timer_expires := timer_expires k;
     klog := klog k |}.

(** [kobject_put] of the only reference: the kobject goes, and its
    directory with the attribute files in it. *)
Definition kobject_put (k : kernel) : kernel :=
  {| kobject := false; attributes := false;
     gpio_requested := gpio_requested k; timer_expires := timer_expires k;
     klog := klog k |}.

(** [gpio_request_one], when it succeeds, and [gpio_free]. *)
Definition set_gpio (held : bool) (k : kernel) : kernel :=
  {| kobject := kobject k; attributes := attributes k;
     gpio_requested := held; timer_expires := timer_expires k;
     klog := klog k |}.

(** [add_timer] with the given expiry, and [del_timer_sync]. *)
Definition set_timer (expires : option Z) (k : kernel) : kernel :=
  {| kobject := kobject k; attributes := attributes k;
     gpio_requested := gpio_requested k; timer_expires := expires;
     klog := klog k |}.

(** What the kernel answers to the calls of [srf05_init]. *)
Record probe := {
  kobject_created : bool;   (* [kobject_create_and_add] did not return [NULL] *)
  group_ret : Z;            (* what [sysfs_create_group] returns *)
  gpio_ret : Z;             (* what [gpio_request_one] returns *)
  jiffies_at_init : Z
}.

Section Kernel.
(** Width of [unsigned long] in bits, the timer ticks per second and the
    error number for "out of memory", as the kernel headers define them. *)
Variable long_bits : Z.
Variable HZ : Z.
Variable ENOMEM : Z.

(** Base for update time is 10 sec. *)
Definition SCAN_DELAY : Z := 10 * HZ.

(** [jiffies + SCAN_DELAY / srf05_updiv]: a division of [int]s, added to an
    [unsigned long]. [None] is the division by zero. *)
Definition next_expiry (jiffies : Z) (m : module_state) : option Z :=
  if srf05_updiv m =? 0 then None
  else Some (to_ulong long_bits (jiffies + Z.quot SCAN_DELAY (srf05_updiv m))).

(** [measure_timer_func], fired at [jiffies] with the line behaving as
    [gpio]. *)
Definition measure_timer_func (gpio : line) (jiffies : Z)
           (m : module_state) (k : kernel) : option (module_state * kernel) :=
  m' ← measure gpio m;
  expires ← next_expiry jiffies m';
  Some (m', set_timer (Some expires) k).

(** [srf05_init]: what it returns and what it leaves held. *)
Definition srf05_init (p : probe) (m : module_state) (k : kernel)
  : option (Z * kernel) :=
  let k := printk "srf05: init" k in
  let k := printk ("srf05: using gpio #" +:+ fmt_d (srf05_gpio m)
                     +:+ " for data aquisition" +:+ str LF) k in
  let k := printk ("srf05: using a divisor of " +:+ fmt_d (srf05_cmdiv m)
                     +:+ " for calculating cm from raw" +:+ str LF) k in
  let k := printk ("srf05: using a divisor of " +:+ fmt_d (srf05_updiv m)
                     +:+ " for calculating update freq." +:+ str LF) k in
  if negb (kobject_created p) then Some (- ENOMEM, k)
  else
    let k := kobject_add k in
    let ret := group_ret p in
    if negb (ret =? 0) then Some (ret, kobject_put k)
    else
      let k := create_group k in
      let ret := gpio_ret p in
      if negb (ret =? 0) then
        let k := printk ("Unable to request GPIO for SRF05: " +:+ fmt_d ret
                           +:+ str LF) k in
        Some (ret, kobject_put k)
      else
        let k := set_gpio true k in
        expires ← next_expiry (jiffies_at_init p) m;
        Some (ret, set_timer (Some expires) k).
End Kernel.

(** [srf05_exit] *)
Definition srf05_exit (k : kernel) : kernel :=
  let k := printk ("srf05: exit" +:+ str LF) k in
  let k := kobject_put k in
  let k := set_timer None k in
  set_gpio false k.

End Srf05Life.

(** ** The service's main loop, [srf05web.c] *)

Module Srf05Main.
Import CText Srf05Web.

(** One round of the main loop as the outside world shapes it: whether
    SIGINT arrived before the loop tests [interrupted], and what happens
    around the process during [sleep (1)] (the module updates its
    attributes, the clock advances). *)
Record second := {
  sigint : bool;
  outside : world -> world
}.

(** The variables of the process. *)
Record process := {
  interrupted : Z;
  loopcnt : Z;
  env : world;
  table : history_table
}.

(** How a run over finitely many rounds ends: [main] returned, it is
    still looping, or the process ran into a fault. *)
Inductive outcome :=
| Returned (ret : Z) (p : process)
| Running (p : process)
| Crashed (f : fault) (w : world).

(** [sig_handler] *)
Definition sig_handler (p : process) : process :=
  {| interrupted := 1; loopcnt := loopcnt p; env := env p; table := table p |}.

Section Main.
Variable long_bits : Z.
Variable localtime : Z -> tm.

(** [while (!interrupted) { sleep (1); if (loopcnt++ >= HISTORY_INTERVAL)
    { add_history (); dump_history (); loopcnt = 0; } }], then [mg_stop]
    and [return 0]. *)
Fixpoint main_loop (rounds : list second) (p : process) : outcome :=
  match rounds with
  | [] => Running p
  | r :: rounds' =>
      let p := if sigint r then sig_handler p else p in
      if interrupted p =? 0 then
        let w := outside r (env p) in
        if loopcnt p >=? HISTORY_INTERVAL then
          match history_tick long_bits localtime w (table p) with
          | (w', Ok h') =>
              main_loop rounds'
                {| interrupted := interrupted p; loopcnt := 0;
                   env := w'; table := h' |}
          | (w', Fault f) => Crashed f w'
          end
        else
          main_loop rounds'
            {| interrupted := interrupted p; loopcnt := loopcnt p + 1;
               env := w; table := table p |}
      else Returned 0 p
  end.

(** [main], with what [chdir (DOC_ROOT)] answers. *)
Definition main (chdir_ret : Z) (rounds : list second) (w : world) : outcome :=
  let p := {| interrupted := 0; loopcnt := HISTORY_INTERVAL;
              env := w; table := history |} in
  if negb (chdir_ret =? 0) then
    Returned (-1)
      {| interrupted := 0; loopcnt := HISTORY_INTERVAL;
         env := printf ("ERROR: doc-root " +:+ DOC_ROOT +:+ " not found!" +:+ str LF) w;
         table := history |}
  else main_loop rounds p.
End Main.

(** A round without signal in which nothing changes around the process. *)
Definition quiet : second := {| sigint := false; outside := fun w => w |}.

(** A round in which SIGINT arrives. *)
Definition signalled : second := {| sigint := true; outside := fun w => w |}.

(** An environment in which a firing of the main loop goes through: the
    status file cannot be opened or reads as the module shows it, and no
    file is locked. *)
Definition serviceable (w : world) : Prop :=
  (fopen_r w STATUS_FILE = None
   \/ exists m, fopen_r w STATUS_FILE = Some (Srf05Mod.sysfs_status_show m))
  /\ locked w = ∅.

End Srf05Main.

(** ** Tables in general *)

Module Tables.
Import Srf05Web.

(** A table as [add_history] keeps it: as many slots as [size] says, the
    cursor on one of them or still at -1, at most [size] entries counted. *)
Definition well_formed (h : history_table) : Prop :=
  0 < size h /\ Z.of_nat (length (entries h)) = size h
  /\ -1 <= curr h < size h /\ 0 <= count h <= size h.

End Tables.

(** ** Lines of text *)

Module Lines.
Import CText.


(** [s] is a decimal numeral of [v]: a minus sign when [v] is negative,
    then at least one digit, and the digits read as the magnitude of [v]. *)
Definition numeral (s : string) (v : Z) : Prop :=
  exists u,
    s = (if v <? 0 then "-" else "") +:+ u
    /\ u <> "" /\ all_digits u = true /\ strtol_digits 0 u = Z.abs v.

End Lines.

(** ** Proof steps *)

(** One step of the error monad: a bind whose first operand is an [Ok] or
    a [Fault] in view. *)
Ltac step := cbn [mbind Srf05Web.result_bind].

(** * Properties *)

(** ** The driver's two waits *)

Section Driver.
Import Srf05Mod.

(** A poll that starts with enough fuel for the ticks still allowed ends
    after some [j] more ticks: the line was at [level] for those [j]
    reads, and it was not at the next one unless the budget is spent. *)
Lemma busy_poll_ends (gpio : line) (level timeout : Z) :
  forall (fuel k : nat) (t : Z),
    0 <= t <= timeout ->
    (Z.to_nat (timeout - t) < fuel)%nat ->
    exists j : nat,
      busy_poll fuel gpio level timeout k t = Some (S (k + j), t + Z.of_nat j)
      /\ t + Z.of_nat j <= timeout
      /\ (forall i : nat, (i < j)%nat -> gpio (k + i)%nat = level)
      /\ (t + Z.of_nat j < timeout -> gpio (k + j)%nat <> level).
Proof.
  induction fuel as [|fuel IH]; intros k t Ht Hfuel; [lia|].
  cbn [busy_poll].
  destruct (gpio k =? level) eqn:Hlevel; cbn [andb].
  - apply Z.eqb_eq in Hlevel.
    destruct (t <? timeout) eqn:Hlt.
    + apply Z.ltb_lt in Hlt.
      destruct (IH (S k) (t + 1)) as (j & Hrun & Hle & Hbefore & Hat); [lia..|].
      exists (S j). rewrite Hrun.
      replace (S k + j)%nat with (k + S j)%nat by lia.
      replace (t + 1 + Z.of_nat j) with (t + Z.of_nat (S j)) in * by lia.
      repeat split; [lia| |].
      * intros [|i] Hi; [by rewrite Nat.add_0_r|].
        replace (k + S i)%nat with (S k + i)%nat by lia. apply Hbefore. lia.
      * intros Hroom. replace (k + S j)%nat with (S k + j)%nat by lia. auto.
    + apply Z.ltb_ge in Hlt.
      exists 0%nat. rewrite Nat.add_0_r, Z.add_0_r.
      repeat split; [lia|intros; lia|lia].
  - apply Z.eqb_neq in Hlevel.
    exists 0%nat. rewrite Nat.add_0_r, Z.add_0_r.
    repeat split; [lia|intros; lia|done].
Qed.

(** The first read at which the line is high is unique. *)
Lemma echo_start_unique (gpio : line) (k k' : nat) :
  echo_starts_at gpio k -> echo_starts_at gpio k' -> k = k'.
Proof.
  intros (_ & Hk & Hlow) (_ & Hk' & Hlow').
  destruct (Nat.lt_trichotomy k k') as [Hlt|[->|Hlt]]; [|done|].
  - by apply Hlow' in Hlt.
  - by apply Hlow in Hlt.
Qed.

(** [measure] always returns, and what it leaves is decided by the line:
    how long it stayed low, then how long it stayed high. *)
Lemma measure_cases (gpio : line) (m : module_state) :
  (start_timed_out gpio /\ measure gpio m = Some (set_status 1 m))
  \/ (exists k, echo_starts_at gpio k /\ width_timed_out gpio k
               /\ measure gpio m = Some (set_status 1 m))
  \/ (exists k n, echo_starts_at gpio k /\ echo_ends_after gpio k n
                 /\ measure gpio m
                    = Some (set_distance (Z.of_nat n) (set_status 0 m))).
Proof.
  unfold measure.
  destruct (busy_poll_ends gpio 0 MEASURE_START_TIMEOUT
              (poll_fuel MEASURE_START_TIMEOUT) 0 0)
    as (k & -> & Hk & Hlow & Hhigh);
    [unfold MEASURE_START_TIMEOUT; lia | unfold poll_fuel; lia |].
  cbn [Nat.add] in *. rewrite Z.add_0_l in *.
  rewrite Z.geb_leb.
  destruct (Z.leb_spec MEASURE_START_TIMEOUT (Z.of_nat k)) as [Hstart|Hstart].
  { left. split; [|done]. intros i Hi. apply Hlow. lia. }
  right.
  assert (echo_starts_at gpio k) as Hecho.
  { split; [done|]. split; [by apply Hhigh|done]. }
  destruct (busy_poll_ends gpio 1 MEASURE_XMIT_TIMEOUT
              (poll_fuel MEASURE_XMIT_TIMEOUT) (S k) 0)
    as (n & -> & Hn & Hone & Hdrop);
    [unfold MEASURE_XMIT_TIMEOUT; lia | unfold poll_fuel; lia |].
  rewrite Z.add_0_l in *.
  rewrite Z.geb_leb.
  destruct (Z.leb_spec MEASURE_XMIT_TIMEOUT (Z.of_nat n)) as [Hxmit|Hxmit].
  - left. exists k. split; [done|]. split; [|done].
    intros j Hj. apply Hone. lia.
  - right. exists k, n. split; [done|]. split; [|done].
    split; [done|]. split; [by apply Hdrop|done].
Qed.

(** The raw distance of a reachable state is a tick count below the
    budget of the echo-width wait, and the divisor an [int]. *)
Lemma reachable_bounds (m : module_state) :
  reachable m ->
  0 <= distance m < MEASURE_XMIT_TIMEOUT /\ - 2 ^ 31 <= srf05_cmdiv m < 2 ^ 31.
Proof.
  induction 1 as [gpio_no cmdiv updiv Hcmdiv|gpio m m' Hreach IH Hmeasure].
  - cbn. unfold MEASURE_XMIT_TIMEOUT. lia.
  - destruct (measure_cases gpio m)
      as [[_ Heq]|[(k & _ & _ & Heq)|(k & n & _ & (Hn & _) & Heq)]];
      rewrite Heq in Hmeasure; injection Hmeasure as <-; cbn; [done|done|lia].
Qed.

(** Claim C1. Every call of [measure] returns. If the echo-start wait
    uses up [MEASURE_START_TIMEOUT] polls with the line still low, or the
    echo-width wait uses up [MEASURE_XMIT_TIMEOUT] polls with the line
    still high, the status is ERROR (1) and the raw distance is the one
    from before the call; otherwise the status is OPERATIONAL (0) and
    the raw distance is the tick count of the echo-width wait. *)
Theorem measure_timeout_or_echo_width (gpio : line) (m : module_state) :
  exists m',
    measure gpio m = Some m'
    /\ (timed_out gpio -> status m' = 1 /\ distance m' = distance m)
    /\ (~ timed_out gpio -> status m' = 0 /\ echo_width gpio (distance m')).
Proof.
  destruct (measure_cases gpio m)
    as [[Hstart ->]|[(k & Hecho & Hwidth & ->)|(k & n & Hecho & Hend & ->)]].
  - eexists; split; [done|]. split; [done|].
    intros Hnot. destruct Hnot. by left.
  - eexists; split; [done|]. split; [done|].
    intros Hnot. destruct Hnot. right. by exists k.
  - eexists; split; [done|]. split.
    + intros [Hstart|(k' & Hecho' & Hwidth)]; exfalso.
      * destruct Hecho as (Hk & Hhigh & _). by apply Hhigh, Hstart.
      * rewrite <- (echo_start_unique gpio k k' Hecho Hecho') in Hwidth.
        destruct Hend as (Hn & Hdrop & _). by apply Hdrop, Hwidth.
    + intros _. split; [done|]. by exists k, n.
Qed.

(** The example line does not time out. *)
Lemma example_line_in_time : ~ timed_out example_line.
Proof.
  intros [Hstart|(k & Hecho & Hwidth)].
  - by specialize (Hstart 3%nat ltac:(unfold MEASURE_START_TIMEOUT; lia)).
  - assert (echo_starts_at example_line 3) as Hthree.
    { split; [unfold MEASURE_START_TIMEOUT; lia|]. split; [done|].
      intros [|[|[|i]]] Hi; (reflexivity || lia). }
    rewrite (echo_start_unique example_line k 3 Hecho Hthree) in Hwidth.
    by specialize (Hwidth 6%nat ltac:(unfold MEASURE_XMIT_TIMEOUT; lia)).
Qed.

(** Claim C1 on the example line: the echo starts at the fourth read and
    lasts six polls, so the call leaves the status OPERATIONAL and a raw
    distance of 6. *)
Lemma measure_example_line :
  ~ timed_out example_line
  /\ exists m', measure example_line module_init = Some m'
                /\ status m' = 0 /\ distance m' = 6.
Proof.
  split; [exact example_line_in_time|].
  destruct (measure_timeout_or_echo_width example_line module_init)
    as (m' & Hmeasure & _ & Hecho).
  exists m'. split; [done|]. split; [by apply Hecho, example_line_in_time|].
  vm_compute in Hmeasure. by injection Hmeasure as <-.
Defined.
End Driver.

(** ** Strings *)

Section Text.
Import CText.

Lemma app_assoc_s (a b c : string) : (a +:+ b) +:+ c = a +:+ (b +:+ c).
Proof. induction a as [|x a IH]; [reflexivity|]. exact (f_equal (String x) IH). Qed.

Lemma app_empty_r (a : string) : a +:+ "" = a.
Proof. induction a as [|x a IH]; [reflexivity|]. exact (f_equal (String x) IH). Qed.

Lemma length_app_s (a b : string) :
  String.length (a +:+ b) = (String.length a + String.length b)%nat.
Proof. induction a as [|x a IH]; [reflexivity|]. exact (f_equal S IH). Qed.

Lemma snprintf_fits (size : nat) (s : string) :
  (String.length s < size)%nat -> snprintf size s = s.
Proof.
  unfold snprintf. intros Hfit.
  assert (String.length s <= size - 1)%nat as Hle by lia. clear Hfit.
  revert Hle. generalize (size - 1)%nat as k.
  induction s as [|x s IH]; intros [|k] Hk; cbn in *; [done|done|lia|].
  f_equal. apply IH. lia.
Qed.

Lemma snprintf_length (size : nat) (s : string) :
  (String.length (snprintf size s) <= size - 1)%nat.
Proof.
  unfold snprintf. generalize (size - 1)%nat as k.
  induction s as [|x s IH]; intros [|k]; cbn; [lia..|].
  specialize (IH k). lia.
Qed.

(** Two texts split at the same place are equal part by part. *)
Lemma app_inj_length (a a' b b' : string) :
  a +:+ b = a' +:+ b' -> String.length a = String.length a' ->
  a = a' /\ b = b'.
Proof.
  revert a'. induction a as [|x a IH]; intros [|x' a'] Heq Hlen;
    try discriminate Hlen; [done|].
  change (String x (a +:+ b) = String x' (a' +:+ b')) in Heq.
  injection Heq as -> Heq. injection Hlen as Hlen.
  destruct (IH a' Heq Hlen) as [-> ->]. done.
Qed.

(** [snprintf] leaves the text whole exactly when it fits. *)
Lemma snprintf_whole (size : nat) (s : string) :
  (1 <= size)%nat ->
  snprintf size s = s <-> (String.length s < size)%nat.
Proof.
  intros Hsize. split; [|apply snprintf_fits].
  intros Heq. pose proof (snprintf_length size s) as Hlen.
  rewrite Heq in Hlen. lia.
Qed.

(** A text that does not fit is cut to [size - 1] characters. *)
Lemma snprintf_cut_length (size : nat) (s : string) :
  (size - 1 <= String.length s)%nat ->
  String.length (snprintf size s) = (size - 1)%nat.
Proof.
  unfold snprintf. generalize (size - 1)%nat as k.
  induction s as [|x s IH]; intros [|k] Hk; cbn in *; [done|lia|done|].
  f_equal. apply IH. lia.
Qed.
End Text.

(** ** The history store *)

Section Store.
Import CText Srf05Web.
Variable long_bits : Z.
Variable localtime : Z -> tm.

Lemma slot_range (n len j : Z) : 0 < n -> 0 <= slot n len j < n.
Proof. intros Hn. unfold slot. by apply Z.mod_pos_bound. Qed.

(** The slot after the newest one, with the wrap-around of [add_history]. *)
Lemma slot_next (n len : Z) :
  0 < n ->
  slot n (len + 1) 0
  = if slot n len 0 + 1 >=? n then 0 else slot n len 0 + 1.
Proof.
  intros Hn. pose proof (slot_range n len 0 Hn) as Hr.
  assert (slot n (len + 1) 0 = (slot n len 0 + 1) mod n) as ->.
  { unfold slot. rewrite Z.add_mod_idemp_l by lia. f_equal. lia. }
  rewrite Z.geb_leb. destruct (Z.leb_spec n (slot n len 0 + 1)).
  - replace (slot n len 0 + 1) with n by lia. by apply Z.mod_same, Z.neq_sym, Z.lt_neq.
  - apply Z.mod_small. lia.
Qed.

(** The slot before a given one, with the wrap-around of the handler. *)
Lemma slot_back (n len j : Z) :
  0 < n ->
  slot n len (j + 1)
  = if slot n len j - 1 <? 0 then n - 1 else slot n len j - 1.
Proof.
  intros Hn. pose proof (slot_range n len j Hn) as Hr.
  assert (slot n len (j + 1) = (slot n len j - 1) mod n) as ->.
  { unfold slot. rewrite Zminus_mod_idemp_l. f_equal. lia. }
  destruct (Z.ltb_spec (slot n len j - 1) 0).
  - replace (slot n len j - 1) with (n - 1 + (-1) * n) by lia.
    rewrite Z.mod_add by lia. apply Z.mod_small. lia.
  - apply Z.mod_small. lia.
Qed.

(** Fewer than [n] steps back never come round to the newest slot. *)
Lemma slot_distinct (n len j : Z) :
  0 < j < n -> slot n len j <> slot n len 0.
Proof.
  intros Hj Heq. unfold slot in Heq.
  assert (j mod n = 0) as Hmod.
  { replace j with ((len - 1 - 0) - (len - 1 - j)) at 1 by lia.
    rewrite Zminus_mod, Heq, Z.sub_diag. apply Z.mod_0_l. lia. }
  rewrite Z.mod_small in Hmod; lia.
Qed.

Lemma entry_at_lookup (h : history_table) (pos : Z) (e : history_entry) :
  0 <= pos -> entries h !! Z.to_nat pos = Some e -> entry_at h pos = Ok e.
Proof.
  intros Hpos Hlook. unfold entry_at.
  destruct (Z.ltb_spec pos 0); [lia|]. by rewrite Hlook.
Qed.

(** Writing the four fields of a slot one after the other leaves the
    reading in it. *)
Lemma add_history_stores (w : world) (h : history_table) (e : history_entry) :
  let pos := if curr h + 1 >=? size h then 0 else curr h + 1 in
  0 <= pos < Z.of_nat (length (entries h)) ->
  reading long_bits w = Ok e ->
  add_history long_bits w h
  = Ok {| entries := <[Z.to_nat pos := e]> (entries h);
          size := size h;
          curr := pos;
          count := if count h <? size h then count h + 1 else count h |}.
Proof.
  intros pos Hpos Hread. unfold add_history, reading in *.
  fold pos.
  destruct (lookup_lt_is_Some_2 (entries h) (Z.to_nat pos)) as [e0 He0]; [lia|].
  set (h1 := if curr h + 1 >=? size h then (0, set_curr (-1) h) else (curr h + 1, h)).
  assert (h1 = (pos, set_curr (pos - 1) h)) as ->.
  { unfold h1, pos. destruct (curr h + 1 >=? size h); [done|].
    f_equal. destruct h; unfold set_curr; cbn. f_equal. lia. }
  cbn beta iota zeta.
  destruct (srf05_read_status w (uninitialised w 32) 32) as [buf|]; [|done].
  cbn in Hread |- *.
  destruct (c_string buf) as [st|]; [|done].
  cbn in Hread |- *. injection Hread as <-.
  unfold update_entry, entry_at.
  destruct (Z.ltb_spec pos 0) as [|_]; [lia|].
  destruct (count h <? size h); cbn; rewrite He0; cbn.
  all: rewrite !list_lookup_insert_eq by (rewrite ?length_insert; lia); cbn.
  all: rewrite !list_lookup_insert_eq by (rewrite ?length_insert; lia); cbn.
  all: rewrite !list_lookup_insert_eq by (rewrite ?length_insert; lia); cbn.
  all: rewrite !list_insert_insert_eq.
  all: unfold set_curr; cbn; replace (pos - 1 + 1) with pos by lia; reflexivity.
Qed.

Lemma add_history_reads (w : world) (h h' : history_table) :
  add_history long_bits w h = Ok h' -> exists e, reading long_bits w = Ok e.
Proof.
  unfold add_history, reading.
  destruct (if curr h + 1 >=? size h then _ else _) as [pos h1].
  destruct (update_entry pos _ _) as [h2|]; step; [|done].
  destruct (update_entry pos _ _) as [h3|]; step; [|done].
  destruct (update_entry pos _ _) as [h4|]; step; [|done].
  destruct (srf05_read_status w (uninitialised w 32) 32) as [buf|]; step; [|done].
  destruct (c_string buf) as [st|]; step; [|done].
  eauto.
Qed.

Lemma holds_empty (n : Z) :
  0 <= n -> holds n [] (history_of_capacity n).
Proof.
  intros Hn. split; cbn; [done|rewrite length_replicate; lia|lia|done|lia].
Qed.

(** [add_history] on a table that holds [rs] leaves one that holds [rs]
    and the reading. *)
Lemma add_history_holds (n : Z) (rs : list history_entry) (w : world)
      (h h' : history_table) :
  0 < n -> holds n rs h ->
  add_history long_bits w h = Ok h' ->
  exists e, reading long_bits w = Ok e /\ holds n (rs ++ [e]) h'.
Proof.
  intros Hn [Hsize Hlen Hcount Hcurr Hslots] Hadd.
  destruct (add_history_reads w h h' Hadd) as [e Hread].
  exists e. split; [done|].
  set (len := Z.of_nat (length rs)) in *.
  assert ((if curr h + 1 >=? size h then 0 else curr h + 1) = slot n (len + 1) 0)
    as Hpos.
  { rewrite Hcurr, Hsize. destruct (decide (rs = [])) as [->|Hne].
    - cbn in len. subst len. unfold slot. cbn.
      change (Z.of_nat 0 + 1 - 1 - 0) with 0. change (-1 + 1) with 0.
      rewrite Z.mod_0_l by lia. rewrite Z.geb_leb. by destruct (Z.leb_spec n 0); [lia|].
    - by rewrite slot_next. }
  pose proof (slot_range n (len + 1) 0 Hn) as Hrange.
  rewrite (add_history_stores w h e) in Hadd; [|rewrite Hpos; lia|done].
  injection Hadd as <-. rewrite Hpos.
  assert (Z.of_nat (length (rs ++ [e])) = len + 1) as Hlen'.
  { rewrite length_app. cbn. lia. }
  split; cbn [entries size curr count].
  - done.
  - by rewrite length_insert.
  - rewrite Hlen', Hcount, Hsize. destruct (Z.ltb_spec (Z.min len n) n); lia.
  - rewrite Hlen'. destruct (decide (rs ++ [e] = [])) as [Heq|]; [|done].
    by destruct rs.
  - rewrite Hlen', rev_app_distr. cbn [rev app].
    rewrite Hsize, Hcount.
    intros [|j] Hj.
    + rewrite list_lookup_insert_eq; [done|lia].
    + assert (Z.of_nat j < count h).
      { rewrite Hcount. destruct (Z.ltb_spec (Z.min len n) n); lia. }
      cbn [lookup list_lookup]. rewrite list_lookup_insert_ne.
      * rewrite <- Hslots by done. do 2 f_equal. unfold slot. f_equal. lia.
      * pose proof (slot_distinct n (len + 1) (Z.of_nat (S j))) as Hne.
        pose proof (slot_range n (len + 1) (Z.of_nat (S j)) Hn).
        destruct (Z.ltb_spec (Z.min len n) n); lia.
Qed.

(** The handler's loop, started at the slot of the [j]-th newest entry
    for [k] rounds, visits the [k] entries from the [j]-th newest on and
    appends their lines. *)
Lemma history_loop_walks (n : Z) (rs : list history_entry) (h : history_table) :
  0 < n -> holds n rs h ->
  forall (k j : nat) (first : bool) (content : string) (seen : list history_entry),
    Z.of_nat (j + k) <= count h ->
    history_loop localtime k h (slot n (Z.of_nat (length rs)) (Z.of_nat j))
                 first content seen
    = Ok (content +:+ history_lines localtime first (take k (drop j (rev rs))),
          seen ++ take k (drop j (rev rs))).
Proof.
  intros Hn [Hsize Hlen Hcount Hcurr Hslots].
  induction k as [|k IH]; intros j first content seen Hjk.
  { cbn. by rewrite app_empty_r, app_nil_r. }
  cbn [history_loop].
  pose proof (slot_range n (Z.of_nat (length rs)) (Z.of_nat j) Hn) as Hr.
  assert (is_Some (rev rs !! j)) as [e He].
  { apply lookup_lt_is_Some_2. rewrite length_rev. lia. }
  rewrite (entry_at_lookup h _ e); [|lia|rewrite Hslots; [done|lia]].
  step. rewrite Hsize, <- slot_back by done.
  replace (Z.of_nat j + 1) with (Z.of_nat (S j)) by lia.
  rewrite IH by lia.
  rewrite (drop_S _ e j He). cbn [take history_lines].
  by rewrite app_assoc_s, <- (assoc_L (++)).
Qed.

(** The handler's loop over a table that holds [rs]: the newest entries
    first, as many as the table has slots at most. *)
Lemma history_loop_of_holds (n : Z) (rs : list history_entry) (h : history_table)
      (content : string) :
  0 < n -> holds n rs h ->
  history_loop localtime (Z.to_nat (count h)) h (curr h) true content []
  = Ok (content +:+ history_lines localtime true (take (Z.to_nat n) (rev rs)),
        take (Z.to_nat n) (rev rs)).
Proof.
  intros Hn Hholds.
  destruct (decide (rs = [])) as [->|Hne].
  { destruct Hholds as [_ _ Hcount _ _]. cbn in Hcount.
    replace (count h) with 0 by lia. cbn. by rewrite take_nil, app_empty_r. }
  pose proof (history_loop_walks n rs h Hn Hholds (Z.to_nat (count h)) 0 true content [])
    as Hwalk.
  destruct Hholds as [_ _ Hcount Hcurr _].
  rewrite decide_False in Hcurr by done. rewrite Hcurr.
  change (Z.of_nat 0) with 0 in Hwalk.
  rewrite Hwalk by lia. cbn [app]. rewrite drop_0, Hcount.
  destruct (Z.min_spec (Z.of_nat (length rs)) n) as [[? ->]|[? ->]]; [|done].
  rewrite Nat2Z.id, !take_ge; [done|rewrite length_rev; lia..].
Qed.


(** The reply to a history query on a table that holds [rs]. *)
Lemma history_query_of_holds (n : Z) (rs : list history_entry) (h : history_table)
      (w : world) :
  0 < n -> holds n rs h ->
  let content :=
    ("{ " +:+ quoted "history" +:+ " : [ ")
      +:+ history_lines localtime true (take (Z.to_nat n) (rev rs)) +:+ "] }" in
  begin_request_handler long_bits localtime w h "/sensor/srf05/history"
  = Ok {| returned := 1;
          sent := http_reply (Z.of_nat (String.length content)) content |}.
Proof.
  intros Hn Hholds content. unfold begin_request_handler.
  cbn [String.eqb Ascii.eqb Bool.eqb].
  rewrite (history_loop_of_holds n rs h _ Hn Hholds). step. cbn [fst].
  by rewrite app_assoc_s.
Qed.

(** The newest entry of a table is the one added last. *)
Lemma holds_newest (n : Z) (rs : list history_entry) (e : history_entry)
      (h : history_table) :
  0 < n -> holds n (rs ++ [e]) h -> entry_at h (curr h) = Ok e.
Proof.
  intros Hn [_ _ Hcount Hcurr Hslots].
  rewrite decide_False in Hcurr by (by destruct rs).
  specialize (Hslots 0%nat). rewrite rev_app_distr in Hslots. cbn in Hslots.
  rewrite Hcurr. apply entry_at_lookup; [by apply slot_range|].
  apply Hslots. rewrite Hcount, length_app. cbn. lia.
Qed.



End Store.

(** ** Decimal texts *)

Section Decimal.
Import CText.

Lemma all_digits_app (a b : string) :
  all_digits (a +:+ b) = all_digits a && all_digits b.
Proof.
  induction a as [|x a IH]; [reflexivity|].
  change (isdigit x && all_digits (a +:+ b) = isdigit x && all_digits a && all_digits b).
  by rewrite IH, andb_assoc.
Qed.

(** The ten digits. *)
Lemma digit_cases (d : Z) (P : Z -> Prop) :
  0 <= d < 10 ->
  P 0 -> P 1 -> P 2 -> P 3 -> P 4 -> P 5 -> P 6 -> P 7 -> P 8 -> P 9 -> P d.
Proof.
  intros Hd.
  assert (d = 0 \/ d = 1 \/ d = 2 \/ d = 3 \/ d = 4 \/ d = 5 \/ d = 6 \/ d = 7
          \/ d = 8 \/ d = 9) as Hcases by lia.
  intuition (subst; assumption).
Qed.

Lemma digit_char_isdigit (d : Z) : 0 <= d < 10 -> isdigit (digit_char d) = true.
Proof. intros Hd. by apply (digit_cases d (fun d => isdigit (digit_char d) = true)). Qed.

Lemma digit_char_val (d : Z) : 0 <= d < 10 -> digit_val (digit_char d) = d.
Proof. intros Hd. by apply (digit_cases d (fun d => digit_val (digit_char d) = d)). Qed.

Lemma udigits_all_digits (fuel : nat) (n : Z) :
  0 <= n -> all_digits (udigits fuel n) = true.
Proof.
  revert n. induction fuel as [|fuel IH]; intros n Hn; [reflexivity|].
  cbn [udigits]. rewrite all_digits_app.
  assert (all_digits (str (digit_char (n mod 10))) = true) as ->.
  { cbn. rewrite digit_char_isdigit; [done|]. by apply Z.mod_pos_bound. }
  destruct (n <? 10); [done|]. rewrite IH; [done|]. by apply Z.div_pos.
Qed.

Lemma udigits_length (fuel k : nat) (n : Z) :
  (1 <= k)%nat -> 0 <= n < 10 ^ Z.of_nat k ->
  (String.length (udigits fuel n) <= k)%nat.
Proof.
  revert k n. induction fuel as [|fuel IH]; intros k n Hk Hn; [cbn; lia|].
  cbn [udigits]. rewrite length_app_s. change (String.length (str _)) with 1%nat.
  destruct (Z.ltb_spec n 10) as [|Hbig]; [cbn; lia|].
  destruct k as [|k]; [lia|].
  rewrite Nat2Z.inj_succ, Z.pow_succ_r in Hn by lia.
  assert (1 <= k)%nat.
  { destruct k; [|lia]. cbn in Hn. lia. }
  assert (String.length (udigits fuel (n / 10)) <= k)%nat; [|lia].
  apply IH; [done|]. split; [apply Z.div_pos; lia|]. apply Z.div_lt_upper_bound; lia.
Qed.

Lemma zeros_digits (k : nat) : digits k (zeros k).
Proof.
  split; induction k as [|k IH]; cbn; [done| |done|done]. by rewrite IH.
Qed.

(** A number below [10 ^ w] printed with [%0wd] is [w] digits. *)
Lemma fmt_0d_digits (w : nat) (n : Z) :
  (1 <= w)%nat -> 0 <= n < 10 ^ Z.of_nat w -> digits w (fmt_0d w n).
Proof.
  intros Hw Hn. unfold fmt_0d, digits.
  destruct (Z.ltb_spec n 0); [lia|].
  pose proof (udigits_length (S (Z.to_nat (Z.log2 n))) w n Hw Hn) as Hlen.
  fold (fmt_u n) in Hlen.
  rewrite length_app_s, all_digits_app.
  destruct (zeros_digits (w - String.length (fmt_u n))) as [-> ->].
  split; [lia|]. apply udigits_all_digits. lia.
Qed.

(** The value [strtol] reads from the digits of [n], whatever follows
    them. *)
Lemma strtol_udigits (fuel : nat) (n : Z) (rest : string) :
  0 <= n < 10 ^ Z.of_nat fuel ->
  exists k : nat,
    forall acc, strtol_digits acc (udigits fuel n +:+ rest)
                = strtol_digits (acc * 10 ^ Z.of_nat k + n) rest.
Proof.
  revert n rest. induction fuel as [|fuel IH]; intros n rest Hn.
  { cbn in Hn. exists 0%nat. intros acc. cbn [udigits]. 
    change ("" +:+ rest) with rest. f_equal. cbn. lia. }
  cbn [udigits]. rewrite app_assoc_s.
  assert (0 <= n mod 10 < 10) as Hd by (by apply Z.mod_pos_bound).
  destruct (Z.ltb_spec n 10) as [Hsmall|Hbig].
  - exists 1%nat. intros acc.
    change ("" +:+ str (digit_char (n mod 10)) +:+ rest)
      with (String (digit_char (n mod 10)) rest).
    cbn [strtol_digits]. rewrite digit_char_isdigit, digit_char_val by done.
    f_equal. rewrite Z.mod_small by lia. cbn. lia.
  - rewrite Nat2Z.inj_succ, Z.pow_succ_r in Hn by lia.
    destruct (IH (n / 10) (str (digit_char (n mod 10)) +:+ rest)) as [k Hk].
    { split; [apply Z.div_pos; lia|]. apply Z.div_lt_upper_bound; lia. }
    exists (S k). intros acc. rewrite Hk.
    change (str (digit_char (n mod 10)) +:+ rest)
      with (String (digit_char (n mod 10)) rest).
    cbn [strtol_digits]. rewrite digit_char_isdigit, digit_char_val by done.
    f_equal. rewrite Nat2Z.inj_succ, Z.pow_succ_r by lia.
    pose proof (Z.div_mod n 10). lia.
Qed.

Lemma fmt_u_fuel (n : Z) : 0 <= n -> n < 10 ^ Z.of_nat (S (Z.to_nat (Z.log2 n))).
Proof.
  intros Hn. destruct (decide (n = 0)) as [->|]; [done|].
  rewrite Nat2Z.inj_succ, Z2Nat.id by apply Z.log2_nonneg.
  pose proof (Z.log2_spec n ltac:(lia)) as [_ Hlt].
  eapply Z.lt_le_trans; [exact Hlt|].
  apply Z.pow_le_mono_l. pose proof (Z.log2_nonneg n). lia.
Qed.

Lemma udigits_head (fuel : nat) (n : Z) :
  exists d s, 0 <= d < 10 /\ udigits (S fuel) n = String (digit_char d) s.
Proof.
  revert n. induction fuel as [|fuel IH]; intros n.
  - exists (n mod 10), "". split; [by apply Z.mod_pos_bound|].
    cbn [udigits]. by destruct (n <? 10).
  - destruct (Z.ltb_spec n 10) as [Hsmall|Hbig].
    + exists (n mod 10), "". split; [by apply Z.mod_pos_bound|].
      cbn [udigits]. by destruct (Z.ltb_spec n 10); [|lia].
    + destruct (IH (n / 10)) as (d & s & Hd & Hhead).
      exists d, (s +:+ str (digit_char (n mod 10))). split; [done|].
      change (udigits (S (S fuel)) n)
        with ((if n <? 10 then "" else udigits (S fuel) (n / 10))
                +:+ str (digit_char (n mod 10))).
      destruct (Z.ltb_spec n 10); [lia|]. by rewrite Hhead.
Qed.

(** The number [strtol] reads back from [%lu]. *)
Lemma strtol_fmt_u (n : Z) : 0 <= n -> strtol_digits 0 (fmt_u n) = n.
Proof.
  intros Hn. unfold fmt_u.
  destruct (strtol_udigits (S (Z.to_nat (Z.log2 n))) n "") as [k Hk].
  { split; [done|]. by apply fmt_u_fuel. }
  specialize (Hk 0). rewrite app_empty_r in Hk. rewrite Hk. cbn. lia.
Qed.

Lemma strtol_zeros (k : nat) (s : string) :
  strtol_digits 0 (zeros k +:+ s) = strtol_digits 0 s.
Proof.
  induction k as [|k IH]; [done|].
  change (strtol_digits 0 (String "0" (zeros k +:+ s)) = strtol_digits 0 s).
  cbn [strtol_digits]. change (isdigit "0") with true. cbn iota.
  change (0 * 10 + digit_val "0") with 0. exact IH.
Qed.

(** The number a zero-padded text stands for. *)
Lemma strtol_fmt_0d (w : nat) (n : Z) :
  0 <= n -> strtol_digits 0 (fmt_0d w n) = n.
Proof.
  intros Hn. unfold fmt_0d. destruct (Z.ltb_spec n 0); [lia|].
  rewrite strtol_zeros. by apply strtol_fmt_u.
Qed.

Lemma fmt_0d_inj (w : nat) (n n' : Z) :
  0 <= n -> 0 <= n' -> fmt_0d w n = fmt_0d w n' -> n = n'.
Proof.
  intros Hn Hn' Heq. rewrite <- (strtol_fmt_0d w n), <- (strtol_fmt_0d w n') by done.
  by rewrite Heq.
Qed.

(** A field printed with [%0wd]: [w] digits that read as the number. *)
Lemma fmt_0d_field (w : nat) (n : Z) :
  (1 <= w)%nat -> 0 <= n < 10 ^ Z.of_nat w ->
  digits w (fmt_0d w n) /\ strtol_digits 0 (fmt_0d w n) = n.
Proof.
  intros Hw Hn. split; [by apply fmt_0d_digits|]. apply strtol_fmt_0d. lia.
Qed.

(** [%ld] prints a numeral of its argument. *)
Lemma fmt_d_numeral (v : Z) : Lines.numeral (fmt_d v) v.
Proof.
  unfold Lines.numeral, fmt_d. destruct (Z.ltb_spec v 0).
  - exists (fmt_u (- v)). split; [done|]. split.
    { unfold fmt_u. by destruct (udigits_head (Z.to_nat (Z.log2 (- v))) (- v))
        as (d & s & _ & ->). }
    split; [apply udigits_all_digits; lia|]. rewrite strtol_fmt_u; lia.
  - exists (fmt_u v). split; [done|]. split.
    { unfold fmt_u. by destruct (udigits_head (Z.to_nat (Z.log2 v)) v)
        as (d & s & _ & ->). }
    split; [by apply udigits_all_digits|]. rewrite strtol_fmt_u; lia.
Qed.

(** [%ld] of a number of at most thirteen digits, or twelve and a sign. *)
Lemma fmt_d_width (v : Z) :
  - 10 ^ 12 < v < 10 ^ 13 -> (String.length (fmt_d v) <= 13)%nat.
Proof.
  intros Hv. unfold fmt_d. destruct (Z.ltb_spec v 0).
  - rewrite length_app_s. change (String.length "-") with 1%nat.
    pose proof (udigits_length (S (Z.to_nat (Z.log2 (- v)))) 12 (- v) ltac:(lia)) as Hlen.
    change (Z.of_nat 12) with 12 in Hlen. fold (fmt_u (- v)) in Hlen. lia.
  - pose proof (udigits_length (S (Z.to_nat (Z.log2 v))) 13 v ltac:(lia)) as Hlen.
    change (Z.of_nat 13) with 13 in Hlen. fold (fmt_u v) in Hlen. lia.
Qed.

Lemma isdigit_not_lf (c : ascii) : isdigit c = true -> Ascii.eqb c LF = false.
Proof.
  unfold isdigit, code. intros [Hlo _]%andb_prop. apply Z.leb_le in Hlo.
  apply Ascii.eqb_neq. intros ->. cbn in Hlo. lia.
Qed.

(** [fgets] reads a line of digits whole when the buffer has room for it. *)
Lemma read_line_digits (k : nat) (s rest : string) :
  all_digits s = true -> (String.length s < k)%nat ->
  read_line k (s +:+ String LF rest) = s +:+ str LF.
Proof.
  revert k. induction s as [|c s IH]; intros k Hdigits Hroom.
  - destruct k; [cbn in Hroom; lia|]. reflexivity.
  - destruct k as [|k]; [cbn in Hroom; lia|].
    cbn in Hdigits. apply andb_prop in Hdigits as [Hc Hs].
    change (read_line (S k) (String c (s +:+ String LF rest)) = String c (s +:+ str LF)).
    cbn [read_line]. rewrite (isdigit_not_lf c Hc). f_equal.
    apply IH; [done|]. cbn in Hroom. lia.
Qed.

Section Long.
Variable long_bits : Z.

(** Before a digit there is neither white space nor a sign to read. *)
Lemma atol_digit_head (c : ascii) (tail : string) :
  isdigit c = true ->
  atol long_bits (String c tail)
  = Z.max (LONG_MIN long_bits)
          (Z.min (LONG_MAX long_bits) (strtol_digits 0 (String c tail))).
Proof.
  intros Hc.
  destruct c as [[] [] [] [] [] [] [] []]; vm_compute in Hc; try discriminate Hc;
    reflexivity.
Qed.

(** [atol] reads back what [%lu] printed, when the value fits a [long]. *)
Lemma atol_fmt_u (n : Z) (rest : string) :
  0 <= n <= LONG_MAX long_bits ->
  atol long_bits (fmt_u n +:+ String LF rest) = n.
Proof.
  intros Hn. unfold fmt_u.
  destruct (udigits_head (Z.to_nat (Z.log2 n)) n) as (d & s & Hd & Hhead).
  destruct (strtol_udigits (S (Z.to_nat (Z.log2 n))) n (String LF rest)) as [k Hk].
  { split; [lia|]. apply fmt_u_fuel. lia. }
  specialize (Hk 0). rewrite Hhead in *.
  change (String (digit_char d) s +:+ String LF rest)
    with (String (digit_char d) (s +:+ String LF rest)) in *.
  rewrite atol_digit_head by (by apply digit_char_isdigit).
  rewrite Hk. cbn [strtol_digits]. change (isdigit LF) with false. cbn iota.
  assert (LONG_MIN long_bits <= 0).
  { unfold LONG_MIN. pose proof (Z.pow_nonneg 2 (long_bits - 1)). lia. }
  lia.
Qed.
End Long.
End Decimal.

(** ** Snapshots of the history *)

Section Snapshots.
Import CText Srf05Mod Srf05Web Bridge.






End Snapshots.

(** ** The history file *)

Section Persistence.
Import CText Srf05Mod Srf05Web Bridge Lines.

Lemma line_feeds_app (a b : string) :
  line_feeds (a +:+ b) = (line_feeds a + line_feeds b)%nat.
Proof.
  induction a as [|x a IH]; [reflexivity|].
  change (line_feeds (String x (a +:+ b))
          = (line_feeds (String x a) + line_feeds b)%nat).
  cbn [line_feeds]. rewrite IH. lia.
Qed.

Lemma all_digits_no_line_feed (s : string) :
  all_digits s = true -> line_feeds s = 0%nat.
Proof.
  induction s as [|c s IH]; [done|]. cbn.
  intros [Hc Hs]%andb_prop. by rewrite (isdigit_not_lf c Hc), IH.
Qed.

Lemma fmt_u_no_line_feed (n : Z) : 0 <= n -> line_feeds (fmt_u n) = 0%nat.
Proof. intros Hn. by apply all_digits_no_line_feed, udigits_all_digits. Qed.

Lemma fmt_d_no_line_feed (n : Z) : line_feeds (fmt_d n) = 0%nat.
Proof.
  unfold fmt_d. destruct (Z.ltb_spec n 0).
  - rewrite line_feeds_app, fmt_u_no_line_feed by lia. reflexivity.
  - by apply fmt_u_no_line_feed.
Qed.

Lemma fmt_0d_no_line_feed (w : nat) (n : Z) : line_feeds (fmt_0d w n) = 0%nat.
Proof.
  unfold fmt_0d. destruct (Z.ltb_spec n 0).
  - rewrite !line_feeds_app, fmt_u_no_line_feed by lia.
    rewrite (all_digits_no_line_feed (zeros _)) by apply zeros_digits. reflexivity.
  - rewrite line_feeds_app, fmt_u_no_line_feed by lia.
    by rewrite (all_digits_no_line_feed (zeros _)) by apply zeros_digits.
Qed.

(** The line of an entry ends in the only line feed it has. *)
Lemma csv_line_one_line (lt : tm) (e : history_entry) :
  line_feeds (csv_line lt e) = 1%nat.
Proof.
  unfold csv_line, quoted, date_text, time_text, stat_label.
  rewrite !line_feeds_app, !fmt_0d_no_line_feed, !fmt_d_no_line_feed.
  by destruct (stat e =? 0).
Qed.

(** A calendar date prints as [YYYY-MM-DD]. *)
Lemma date_text_shape (lt : tm) :
  calendar lt ->
  exists y m d,
    date_text lt = y +:+ "-" +:+ m +:+ "-" +:+ d
    /\ digits 4 y /\ digits 2 m /\ digits 2 d.
Proof.
  intros (Hy & Hm & Hd & _).
  exists (fmt_0d 4 (tm_year lt + 1900)), (fmt_0d 2 (tm_mon lt + 1)),
    (fmt_0d 2 (tm_mday lt)).
  split; [done|]. repeat split; apply fmt_0d_digits; cbn; lia.
Qed.

(** The time of day prints as [HH:MM:SS]. *)
Lemma time_text_shape (lt : tm) :
  calendar lt ->
  exists hh mm ss,
    time_text lt = hh +:+ ":" +:+ mm +:+ ":" +:+ ss
    /\ digits 2 hh /\ digits 2 mm /\ digits 2 ss.
Proof.
  intros (_ & _ & _ & Hh & Hm & Hs).
  exists (fmt_0d 2 (tm_hour lt)), (fmt_0d 2 (tm_min lt)), (fmt_0d 2 (tm_sec lt)).
  split; [done|]. repeat split; apply fmt_0d_digits; cbn; lia.
Qed.

(** The name of the file of a calendar date fits [file_name]. *)
Lemma history_file_name_fits (lt : tm) :
  calendar lt -> history_file_name lt = history_file_text lt.
Proof.
  intros Hcal. apply snprintf_fits.
  destruct (date_text_shape lt Hcal) as (y & m & d & Hdate & [Hy _] & [Hm _] & [Hd _]).
  unfold history_file_text. rewrite Hdate, !length_app_s, Hy, Hm, Hd. cbn. lia.
Qed.

Lemma date_text_length (lt : tm) :
  calendar lt -> String.length (date_text lt) = 10%nat.
Proof.
  intros Hcal.
  destruct (date_text_shape lt Hcal) as (y & m & d & -> & [Hy _] & [Hm _] & [Hd _]).
  rewrite !length_app_s, Hy, Hm, Hd. reflexivity.
Qed.

Lemma time_text_length (lt : tm) :
  calendar lt -> String.length (time_text lt) = 8%nat.
Proof.
  intros Hcal.
  destruct (time_text_shape lt Hcal) as (hh & mm & ss & -> & [Hh _] & [Hm _] & [Hs _]).
  rewrite !length_app_s, Hh, Hm, Hs. reflexivity.
Qed.

(** Two calendar dates have the same file exactly when year, month and
    day agree. *)
Lemma history_file_name_same_day (lt lt' : tm) :
  calendar lt -> calendar lt' ->
  history_file_name lt = history_file_name lt'
  <-> (tm_year lt = tm_year lt' /\ tm_mon lt = tm_mon lt'
       /\ tm_mday lt = tm_mday lt').
Proof.
  intros Hcal Hcal'. rewrite !history_file_name_fits by done.
  unfold history_file_text, date_text. split.
  - intros Heq%(inj (String.app _))%(inj (String.app _)).
    destruct Hcal as (Hy & Hm & Hd & _), Hcal' as (Hy' & Hm' & Hd' & _).
    destruct (fmt_0d_digits 4 (tm_year lt + 1900)) as [Hly _]; [lia|cbn; lia|].
    destruct (fmt_0d_digits 4 (tm_year lt' + 1900)) as [Hly' _]; [lia|cbn; lia|].
    destruct (fmt_0d_digits 2 (tm_mon lt + 1)) as [Hlm _]; [lia|cbn; lia|].
    destruct (fmt_0d_digits 2 (tm_mon lt' + 1)) as [Hlm' _]; [lia|cbn; lia|].
    rewrite !app_assoc_s in Heq.
    apply app_inj_length in Heq as [Hyear Heq]; [|congruence].
    apply (inj (String.app "-")) in Heq.
    apply app_inj_length in Heq as [Hmon Heq]; [|congruence].
    apply (inj (String.app "-")) in Heq.
    assert (String.length (fmt_0d 2 (tm_mday lt))
            = String.length (fmt_0d 2 (tm_mday lt'))) as Hld.
    { destruct (fmt_0d_digits 2 (tm_mday lt)) as [-> _]; [lia|cbn; lia|].
      by destruct (fmt_0d_digits 2 (tm_mday lt')) as [-> _]; [lia|cbn; lia|]. }
    apply app_inj_length in Heq as [Hday _]; [|done].
    apply fmt_0d_inj in Hyear, Hmon, Hday; lia.
  - by intros (-> & -> & ->).
Qed.

Section Dump.
Variable localtime : Z -> tm.

(** [dump_history] in terms of the name and the line of the newest entry:
    the message and the fault when the file cannot be opened, the line at
    the end of the file otherwise. *)
Lemma dump_history_newest (w : world) (h : history_table) (e : history_entry) :
  entry_at h (curr h) = Ok e ->
  let lt := localtime (ts e) in
  let name := history_file_name lt in
  dump_history localtime w h
  = if decide (name ∈ locked w)
    then (printf ("ERROR: unable to open history file " +:+ name +:+ str LF) w,
          Fault NullStream)
    else (set_files (<[name := default "" (files w !! name) +:+ csv_line lt e]> (files w)) w,
          Ok ()).
Proof.
  intros Hentry lt name. unfold dump_history. rewrite Hentry.
  fold lt. fold name. unfold fopen_a.
  destruct (decide (name ∈ locked w)); [done|].
  destruct (files w !! name) as [old|] eqn:Hold; cbn.
  - by rewrite Hold.
  - rewrite lookup_insert_eq. cbn. unfold set_files. cbn.
    by rewrite insert_insert_eq.
Qed.
End Dump.

(** Claim C7. A persist call whose file can be opened appends exactly one
    line of the form
    ["YYYY-MM-DD","HH:MM:SS","<STATUS>",<distance_cm>,<distance_raw>] to
    the file [YYYY-MM-DD.csv] in [/opt/app/html/history]. [YYYY], [MM]
    and [DD] are the four, two and two digits of the year, the month
    (1 to 12) and the day of the month of the entry's local time, [HH],
    [MM] and [SS] the two digits each of its hour, minute and second,
    the status is [ERROR] or [OPERATIONAL], and the distances are
    decimal numerals of the entry's [dcm] and [draw]. The file is
    created empty when it does not exist; what it held stays in front
    of the new line, and no file loses anything. The next persist of an
    entry of the same year, month and day puts its line behind, in the
    same file; that of an entry of another day has another file name
    and leaves this file as it is. *)
Theorem dump_history_appends_one_line (localtime : Z -> tm) (w : world)
        (h : history_table) (e : history_entry) :
  entry_at h (curr h) = Ok e ->
  calendar (localtime (ts e)) ->
  history_file_name (localtime (ts e)) ∉ locked w ->
  let lt := localtime (ts e) in
  exists y m d hh mm ss cm raw : string,
    (digits 4 y /\ strtol_digits 0 y = tm_year lt + 1900)
    /\ (digits 2 m /\ strtol_digits 0 m = tm_mon lt + 1)
    /\ (digits 2 d /\ strtol_digits 0 d = tm_mday lt)
    /\ (digits 2 hh /\ strtol_digits 0 hh = tm_hour lt)
    /\ (digits 2 mm /\ strtol_digits 0 mm = tm_min lt)
    /\ (digits 2 ss /\ strtol_digits 0 ss = tm_sec lt)
    /\ numeral cm (dcm e) /\ numeral raw (draw e)
    /\ let date := y +:+ "-" +:+ m +:+ "-" +:+ d in
       let name := "/opt/app/html/history/" +:+ date +:+ ".csv" in
       let line :=
         quoted date +:+ "," +:+ quoted (hh +:+ ":" +:+ mm +:+ ":" +:+ ss)
           +:+ "," +:+ quoted (if stat e =? 0 then "ERROR" else "OPERATIONAL")
           +:+ "," +:+ cm +:+ "," +:+ raw +:+ str LF in
       let old := default "" (files w !! name) in
       history_file_name lt = name
       /\ csv_line lt e = line
       /\ line_feeds line = 1%nat
       /\ exists w',
           dump_history localtime w h = (w', Ok ())
           /\ files w' = <[name := old +:+ line]> (files w)
           /\ (forall path was,
                 files w !! path = Some was ->
                 exists more, files w' !! path = Some (was +:+ more))
           /\ forall (h2 : history_table) (e2 : history_entry),
               entry_at h2 (curr h2) = Ok e2 ->
               calendar (localtime (ts e2)) ->
               let lt2 := localtime (ts e2) in
               ((tm_year lt2 = tm_year lt /\ tm_mon lt2 = tm_mon lt
                 /\ tm_mday lt2 = tm_mday lt) ->
                exists w'',
                  dump_history localtime w' h2 = (w'', Ok ())
                  /\ files w''
                     = <[name := old +:+ line +:+ csv_line lt2 e2]> (files w))
               /\ (~ (tm_year lt2 = tm_year lt /\ tm_mon lt2 = tm_mon lt
                      /\ tm_mday lt2 = tm_mday lt) ->
                   history_file_name lt2 <> name
                   /\ files (fst (dump_history localtime w' h2)) !! name
                      = Some (old +:+ line)).
Proof.
  intros Hentry Hcal Hfree lt.
  pose proof Hcal as (Hy & Hm & Hd & Hhh & Hmm & Hss). fold lt in Hy, Hm, Hd, Hhh, Hmm, Hss.
  exists (fmt_0d 4 (tm_year lt + 1900)), (fmt_0d 2 (tm_mon lt + 1)),
    (fmt_0d 2 (tm_mday lt)), (fmt_0d 2 (tm_hour lt)), (fmt_0d 2 (tm_min lt)),
    (fmt_0d 2 (tm_sec lt)), (fmt_d (dcm e)), (fmt_d (draw e)).
  do 6 (split; [apply fmt_0d_field; [lia|cbn; lia]|]).
  split; [apply fmt_d_numeral|]. split; [apply fmt_d_numeral|].
  cbv zeta.
  fold (date_text lt). fold (time_text lt). fold (stat_label e).
  fold (csv_line lt e).
  assert ("/opt/app/html/history/" +:+ date_text lt +:+ ".csv"
          = history_file_name lt) as ->.
  { by rewrite history_file_name_fits. }
  split; [done|]. split; [done|]. split; [by apply csv_line_one_line|].
  eexists. split.
  { rewrite (dump_history_newest localtime w h e Hentry). fold lt.
    rewrite decide_False by done. reflexivity. }
  split; [done|]. split.
  { intros path was Hwas. cbn [files set_files].
    destruct (decide (path = history_file_name lt)) as [->|Hother].
    - exists (csv_line lt e). rewrite lookup_insert_eq. by rewrite Hwas.
    - exists "". by rewrite lookup_insert_ne, app_empty_r. }
  intros h2 e2 Hentry2 Hcal2. set (lt2 := localtime (ts e2)). split.
  - intros Hsame.
    assert (history_file_name lt2 = history_file_name lt) as Hname2.
    { by apply history_file_name_same_day. }
    eexists. split.
    { rewrite (dump_history_newest localtime _ h2 e2 Hentry2). fold lt2.
      rewrite Hname2, decide_False by done. reflexivity. }
    cbn [files set_files]. rewrite lookup_insert_eq, insert_insert_eq.
    cbn [default id]. by rewrite app_assoc_s.
  - intros Hother.
    assert (history_file_name lt2 <> history_file_name lt) as Hname2.
    { intros Heq. by apply history_file_name_same_day in Heq. }
    split; [done|].
    rewrite (dump_history_newest localtime _ h2 e2 Hentry2). fold lt2.
    destruct (decide _); cbn [fst files set_files printf].
    + by rewrite lookup_insert_eq.
    + by rewrite lookup_insert_ne, lookup_insert_eq.
Qed.

(** Claim C7 on the example entry, persisted twice on its day into an
    empty directory: the file of 9 November 2012 then holds its line
    twice. *)
Lemma dump_history_twice_same_day :
  let line :=
    quoted "2012-11-09" +:+ "," +:+ quoted "13:05:07" +:+ ","
      +:+ quoted "OPERATIONAL" +:+ ",2,900" +:+ str LF in
  entry_at example_table (curr example_table) = Ok example_entry
  /\ calendar (example_localtime (ts example_entry))
  /\ (history_file_name (example_localtime (ts example_entry))
        ∉ locked (bare_world 0))
  /\ exists w' w'',
      dump_history example_localtime (bare_world 0) example_table = (w', Ok ())
      /\ dump_history example_localtime w' example_table = (w'', Ok ())
      /\ files w'' !! "/opt/app/html/history/2012-11-09.csv"
         = Some (line +:+ line).
Proof.
  intros line.
  assert (calendar (example_localtime (ts example_entry))) as Hcal.
  { vm_compute. repeat split; discriminate. }
  split; [reflexivity|]. split; [exact Hcal|]. split; [set_solver|].
  destruct (dump_history_appends_one_line example_localtime (bare_world 0)
              example_table example_entry eq_refl Hcal ltac:(set_solver))
    as (y & m & d & hh & mm & ss & cm & raw & _ & _ & _ & _ & _ & _ & _ & _
        & Hname & Hline & _ & w' & Hdump & _ & _ & Hnext).
  destruct (Hnext example_table example_entry eq_refl Hcal) as [Hsame _].
  destruct (Hsame ltac:(done)) as (w'' & Hdump' & Hfiles).
  exists w', w''. split; [done|]. split; [done|].
  rewrite Hfiles, <- Hline, <- Hname.
  change (history_file_name (example_localtime (ts example_entry)))
    with "/opt/app/html/history/2012-11-09.csv".
  rewrite lookup_insert_eq. reflexivity.
Defined.

(** Claim C3, at an environment in which the file of the day cannot be
    opened: [dump_history] prints the message and then runs into
    [fprintf] on the [NULL] stream, so neither it nor the firing of the
    main loop that called it returns. *)
Theorem dump_history_unopenable_faults :
  exists h,
    add_history 64 (locked_world 1352466307) history = Ok h
    /\ dump_history example_localtime (locked_world 1352466307) h
       = (printf ("ERROR: unable to open history file " +:+ example_file +:+ str LF)
            (locked_world 1352466307),
          Fault NullStream)
    /\ snd (history_tick 64 example_localtime (locked_world 1352466307) history)
       = Fault NullStream.
Proof.
  eexists. split; [reflexivity|]. split; reflexivity.
Qed.
End Persistence.

(** ** The status string *)

Section Status.
Import CText Srf05Mod Srf05Web Bridge.

Lemma read_line_length (k : nat) (s : string) :
  (String.length (read_line k s) <= k)%nat.
Proof.
  revert s. induction k as [|k IH]; intros [|c s]; cbn; [lia..|].
  destruct (Ascii.eqb c LF); cbn; [lia|]. specialize (IH s). lia.
Qed.

Lemma length_list_ascii (s : string) :
  length (list_ascii_of_string s) = String.length s.
Proof. induction s as [|c s IH]; cbn; [done|]. by rewrite IH. Qed.

(** The first NUL of a buffer that has one after the characters [l] is
    at most [length l] bytes in. *)
Lemma find_nul_bound (l rest : list ascii) (i : Z) :
  exists j, find_nul (l ++ NUL :: rest) i = Ok j /\ i <= j <= i + Z.of_nat (length l).
Proof.
  revert i. induction l as [|c l IH]; intros i.
  { exists i. cbn. split; [done|lia]. }
  cbn [app find_nul]. destruct (Ascii.eqb c NUL).
  - exists i. split; [done|]. cbn. lia.
  - destruct (IH (i + 1)) as (j & -> & Hj). exists j. split; [done|]. cbn. lia.
Qed.

(** Claim C9. Once the status file is open, [srf05_read_status] writes a
    NUL at index [strlen (status) - 1]. When the line read has at least
    one character in front of its terminator, that index lies within the
    [len] bytes of the caller's buffer and the function returns. The
    condition is needed: when nothing is read into a buffer that starts
    with a NUL, or the line read starts with a NUL, the index is -1 and
    the write falls outside the buffer. *)
Theorem read_status_write_index (w : world) (content : string)
        (status : buffer) (len : Z) :
  fopen_r w STATUS_FILE = Some content ->
  Z.of_nat (length status) = len ->
  (forall c rest,
      content = String c rest -> c <> NUL -> 2 <= len ->
      exists i buf,
        status_write_index status len content = Ok i
        /\ 0 <= i < len
        /\ srf05_read_status w status len = Ok buf
        /\ length buf = length status)
  /\ (content = "" -> status !! 0%nat = Some NUL ->
      status_write_index status len content = Ok (-1)
      /\ srf05_read_status w status len = Fault OutOfBounds)
  /\ (forall rest,
        content = String NUL rest -> 2 <= len ->
        status_write_index status len content = Ok (-1)
        /\ srf05_read_status w status len = Fault OutOfBounds).
Proof.
  intros Hopen Hlen. unfold srf05_read_status, status_write_index. rewrite Hopen.
  split; [|split].
  - intros c rest -> Hc Hroom. unfold fgets.
    destruct (Z.leb_spec len 0); [lia|].
    pose proof (read_line_length (Z.to_nat (len - 1)) (String c rest)) as Hline.
    destruct (Z.to_nat (len - 1)) as [|k] eqn:Hk; [lia|].
    assert (exists tail, read_line (S k) (String c rest) = String c tail) as [tail Htail].
    { cbn. destruct (Ascii.eqb c LF); eauto. }
    rewrite Htail in *. cbn [String.length] in Hline.
    unfold blit. rewrite length_app, length_list_ascii. cbn [length String.length].
    destruct (decide _) as [_|Hbad]; [|lia]. step.
    cbn [list_ascii_of_string app]. rewrite <- (assoc_L (++)). cbn [app].
    set (after := drop _ status).
    assert (length (c :: list_ascii_of_string tail ++ NUL :: after) = length status)
      as Hwhole.
    { cbn [length]. rewrite length_app. cbn [length].
      subst after. rewrite length_list_ascii, length_drop. lia. }
    destruct (find_nul_bound (list_ascii_of_string tail) after 1) as (j & Hj & Hrange).
    rewrite length_list_ascii in Hrange.
    unfold strlen. cbn [find_nul]. apply Ascii.eqb_neq in Hc as ->.
    change (0 + 1) with 1. rewrite Hj. step.
    exists (j - 1). eexists. split; [done|]. split; [lia|].
    unfold poke. rewrite Hwhole.
    destruct (Z.leb_spec 0 (j - 1)); [|lia].
    destruct (Z.ltb_spec (j - 1) (Z.of_nat (length status))); [|lia].
    cbn [andb]. split; [reflexivity|]. by rewrite length_insert.
  - intros -> Hhead. unfold fgets.
    destruct (Z.leb_spec len 0) as [Hneg|Hpos].
    { destruct status; [done|cbn in Hlen; lia]. }
    assert (read_line (Z.to_nat (len - 1)) "" = "") as -> by (by destruct (Z.to_nat _)).
    destruct status as [|c status]; [done|]. injection Hhead as ->.
    destruct (len =? 1); cbn; done.
  - intros rest -> Hroom. unfold fgets.
    destruct (Z.leb_spec len 0); [lia|].
    destruct (Z.to_nat (len - 1)) as [|k] eqn:Hk; [lia|].
    pose proof (read_line_length k rest) as Hline.
    change (read_line (S k) (String NUL rest)) with (String NUL (read_line k rest)).
    unfold blit. rewrite length_app, length_list_ascii. cbn [length String.length].
    destruct (decide _) as [_|Hbad]; [|lia]. done.
Qed.

(** Claim C9 beside a module in the ERROR state: the line read is
    "ERROR" and a line feed, and the NUL goes to index 5 of the 32 bytes. *)
Lemma read_status_write_index_error_state :
  let w := sensor_world 64 (set_status 1 module_init) 0 in
  fopen_r w STATUS_FILE = Some ("ERROR" +:+ str LF)
  /\ Z.of_nat (length (uninitialised w 32)) = 32
  /\ exists i buf,
      status_write_index (uninitialised w 32) 32 ("ERROR" +:+ str LF) = Ok i
      /\ 0 <= i < 32 /\ i = 5
      /\ srf05_read_status w (uninitialised w 32) 32 = Ok buf
      /\ length buf = 32%nat.
Proof.
  intros w. split; [reflexivity|]. split; [reflexivity|].
  destruct (read_status_write_index w ("ERROR" +:+ str LF) (uninitialised w 32) 32
              eq_refl eq_refl) as (Hinside & _ & _).
  destruct (Hinside "E"%char ("RROR" +:+ str LF) eq_refl ltac:(discriminate) ltac:(lia))
    as (i & buf & Hindex & Hrange & Hread & Hlength).
  exists i, buf. split; [done|]. split; [done|].
  split; [by injection Hindex as <-|]. split; [done|]. exact Hlength.
Defined.

(** A status file that cannot be opened reads as "UNKNOWN". *)
Lemma read_status_unreadable (w : world) :
  fopen_r w STATUS_FILE = None ->
  srf05_read_status w (uninitialised w 32) 32 ≫= c_string = Ok "UNKNOWN".
Proof. intros Hopen. unfold srf05_read_status. rewrite Hopen. reflexivity. Qed.

(** With a [long] of at most 32 bits, what [srf05_read_distance]
    returns lies within 32 bits. *)
Lemma read_distance_long (long_bits : Z) (w : world) (unit : string) :
  long_bits <= 32 ->
  - 2 ^ 31 <= srf05_read_distance long_bits w unit <= 2 ^ 31.
Proof.
  intros Hbits.
  assert (0 <= 2 ^ (long_bits - 1) <= 2 ^ 31) as Hpow.
  { split; [apply Z.pow_nonneg; lia|].
    destruct (Z.le_gt_cases 0 (long_bits - 1)).
    - apply Z.pow_le_mono_r; lia.
    - rewrite Z.pow_neg_r by lia. lia. }
  change (2 ^ 31) with 2147483648 in *.
  unfold srf05_read_distance. destruct (fopen_r w _); [|lia].
  unfold atol, LONG_MIN, LONG_MAX. lia.
Qed.


(** The line of the newest entry is not cut by the 128 bytes of
    [histline] when the entry is in the error state, its time is a
    calendar date and its two distances take at most 13 characters
    each. *)
Lemma history_line_whole (lt : tm) (e : history_entry) :
  calendar lt -> stat e = 0 ->
  - 10 ^ 12 < draw e < 10 ^ 13 -> - 10 ^ 12 < dcm e < 10 ^ 13 ->
  history_line true lt e = history_line_text true lt e.
Proof.
  intros Hcal Hstat Hraw Hcm. apply snprintf_fits.
  pose proof (fmt_d_width (draw e) Hraw). pose proof (fmt_d_width (dcm e) Hcm).
  unfold history_line_text, stat_label, quoted. rewrite Hstat.
  rewrite !length_app_s, date_text_length, time_text_length by done.
  cbn [String.length str Z.eqb]. lia.
Qed.

(** Claim C10. Whatever status string other than "OPERATIONAL"
    [add_history] reads - "UNKNOWN", for one, when the status file
    cannot be opened - the entry it adds has [stat = 0], the error state.
    The label both renderers print for the entry is then "ERROR": in
    the line [dump_history] appends to the file of the day, and in the
    first object of the reply to a history query. That object is
    whole, with the label in it, when it fits the 128 bytes of
    [histline]: the time of the reading is a calendar date, and either
    [long] has at most 32 bits or the two distances read take at most
    13 characters each. *)
Theorem non_operational_status_is_error (long_bits : Z) (localtime : Z -> tm)
        (n : Z) (rs : list history_entry) (w : world) (h h' : history_table)
        (s : string) :
  0 < n -> holds n rs h ->
  srf05_read_status w (uninitialised w 32) 32 ≫= c_string = Ok s ->
  s <> "OPERATIONAL" ->
  add_history long_bits w h = Ok h' ->
  calendar (localtime (now w)) ->
  (long_bits <= 32
   \/ (- 10 ^ 12 < srf05_read_distance long_bits w "raw" < 10 ^ 13
       /\ - 10 ^ 12 < srf05_read_distance long_bits w "cm" < 10 ^ 13)) ->
  exists e,
    entry_at h' (curr h') = Ok e
    /\ ts e = now w
    /\ stat e = 0
    /\ stat_label e = "ERROR"
    /\ (let lt := localtime (ts e) in
        forall w2 : world,
          history_file_name lt ∉ locked w2 ->
          fst (dump_history localtime w2 h')
          = set_files
              (<[history_file_name lt :=
                   default "" (files w2 !! history_file_name lt)
                     +:+ quoted (date_text lt) +:+ "," +:+ quoted (time_text lt)
                     +:+ "," +:+ quoted "ERROR" +:+ "," +:+ fmt_d (dcm e)
                     +:+ "," +:+ fmt_d (draw e) +:+ str LF]> (files w2)) w2)
    /\ (let lt := localtime (ts e) in
        forall w2 : world,
        exists older content,
          begin_request_handler long_bits localtime w2 h' "/sensor/srf05/history"
          = Ok {| returned := 1;
                  sent := http_reply (Z.of_nat (String.length content)) content |}
          /\ content
             = ("{ " +:+ quoted "history" +:+ " : [ ")
                 +:+ ("{" +:+ quoted "date" +:+ " : " +:+ quoted (date_text lt)
                        +:+ ", " +:+ quoted "time" +:+ " : " +:+ quoted (time_text lt)
                        +:+ ", " +:+ quoted "distance_raw" +:+ " : " +:+ fmt_d (draw e)
                        +:+ ", " +:+ quoted "distance_cm" +:+ " : " +:+ fmt_d (dcm e)
                        +:+ ", " +:+ quoted "status" +:+ " : " +:+ quoted "ERROR"
                        +:+ "}")
                 +:+ older +:+ "] }").
Proof.
  intros Hn Hholds Hstatus Hother Hadd Hcal Hwidth.
  destruct (add_history_holds long_bits n rs w h h' Hn Hholds Hadd)
    as (e & Hread & Hholds').
  pose proof (holds_newest n rs e h' Hn Hholds') as Hentry.
  assert (ts e = now w /\ stat e = 0
          /\ draw e = srf05_read_distance long_bits w "raw"
          /\ dcm e = srf05_read_distance long_bits w "cm") as (Hts & Hstat & Hraw & Hcm).
  { unfold reading in Hread.
    destruct (srf05_read_status w (uninitialised w 32) 32) as [buf|]; [|done].
    cbn [mbind result_bind] in Hread, Hstatus. rewrite Hstatus in Hread.
    cbn [mbind result_bind] in Hread. injection Hread as <-. cbn.
    by apply String.eqb_neq in Hother as ->. }
  assert (stat_label e = "ERROR") as Hlabel by (unfold stat_label; by rewrite Hstat).
  assert (- 10 ^ 12 < draw e < 10 ^ 13 /\ - 10 ^ 12 < dcm e < 10 ^ 13) as [Hwraw Hwcm].
  { rewrite Hraw, Hcm. destruct Hwidth as [Hbits|Hboth]; [|done].
    pose proof (read_distance_long long_bits w "raw" Hbits).
    pose proof (read_distance_long long_bits w "cm" Hbits).
    change (2 ^ 31) with 2147483648 in *.
    change (10 ^ 12) with 1000000000000. change (10 ^ 13) with 10000000000000. lia. }
  exists e. split; [done|]. split; [done|]. split; [done|]. split; [done|]. split.
  - intros lt w2 Hfree.
    rewrite (dump_history_newest localtime w2 h' e Hentry). fold lt.
    rewrite decide_False by done. cbn [fst]. unfold csv_line. by rewrite Hlabel.
  - intros lt w2.
    exists (history_lines localtime false (take (Z.to_nat n - 1) (rev rs))).
    eexists. split; [by apply (history_query_of_holds long_bits localtime n (rs ++ [e]))|].
    rewrite rev_app_distr. cbn [rev app].
    destruct (Z.to_nat n) as [|k] eqn:Hk; [lia|].
    cbn [take history_lines]. fold lt.
    rewrite history_line_whole; [|subst lt; by rewrite Hts|done..].
    unfold history_line_text. rewrite Hlabel.
    rewrite Nat.sub_succ, Nat.sub_0_r. by rewrite !app_assoc_s.
Qed.

(** Claim C10 without the module loaded: the status reads "UNKNOWN",
    the two distances read as -1, and the entry added to the empty
    [history] is in the error state, in the table and in the reply. *)
Lemma unknown_status_is_error :
  let w := bare_world 1352466307 in
  0 < 48 /\ holds 48 [] history
  /\ srf05_read_status w (uninitialised w 32) 32 ≫= c_string = Ok "UNKNOWN"
  /\ "UNKNOWN" <> "OPERATIONAL"
  /\ calendar (example_localtime (now w))
  /\ (- 10 ^ 12 < srf05_read_distance 64 w "raw" < 10 ^ 13
      /\ - 10 ^ 12 < srf05_read_distance 64 w "cm" < 10 ^ 13)
  /\ exists h' e,
      add_history 64 w history = Ok h'
      /\ entry_at h' (curr h') = Ok e /\ stat e = 0 /\ stat_label e = "ERROR"
      /\ exists older content,
          begin_request_handler 64 example_localtime w h' "/sensor/srf05/history"
          = Ok {| returned := 1;
                  sent := http_reply (Z.of_nat (String.length content)) content |}
          /\ content
             = ("{ " +:+ quoted "history" +:+ " : [ ")
                 +:+ ("{" +:+ quoted "date" +:+ " : " +:+ quoted "2012-11-09"
                        +:+ ", " +:+ quoted "time" +:+ " : " +:+ quoted "13:05:07"
                        +:+ ", " +:+ quoted "distance_raw" +:+ " : " +:+ "-1"
                        +:+ ", " +:+ quoted "distance_cm" +:+ " : " +:+ "-1"
                        +:+ ", " +:+ quoted "status" +:+ " : " +:+ quoted "ERROR"
                        +:+ "}")
                 +:+ older +:+ "] }".
Proof.
  intros w.
  assert (calendar (example_localtime (now w))) as Hcal.
  { vm_compute. repeat split; discriminate. }
  assert (- 10 ^ 12 < srf05_read_distance 64 w "raw" < 10 ^ 13
          /\ - 10 ^ 12 < srf05_read_distance 64 w "cm" < 10 ^ 13) as Hwidth.
  { vm_compute. repeat split; reflexivity. }
  split; [lia|]. split; [by apply holds_empty|].
  split; [by apply read_status_unreadable|]. split; [discriminate|].
  split; [exact Hcal|]. split; [exact Hwidth|].
  destruct (add_history 64 w history) as [h'|] eqn:Hadd; [|by vm_compute in Hadd].
  destruct (non_operational_status_is_error 64 example_localtime 48 [] w history h'
              "UNKNOWN" ltac:(lia) (holds_empty 48 ltac:(lia))
              (read_status_unreadable w eq_refl) ltac:(discriminate) Hadd Hcal
              (or_intror Hwidth))
    as (e & Hentry & Hts & Hstat & Hlabel & _ & Hreply).
  exists h', e. split; [done|]. split; [done|]. split; [done|]. split; [done|].
  destruct (Hreply w) as (older & content & Hsent & Hcontent).
  exists older, content. split; [done|].
  rewrite Hcontent.
  assert (Hfields : entry_at h' (curr h') = Ok {| ts := 1352466307; dcm := -1; draw := -1; stat := 0 |}).
  { vm_compute in Hadd. injection Hadd as <-. reflexivity. }
  rewrite Hentry in Hfields. injection Hfields as ->. reflexivity.
Defined.
End Status.

(** ** Centimetres and raw ticks across the sysfs boundary *)

Section Boundary.
Import CText Srf05Mod Srf05Web Bridge.

Lemma fmt_u_length (k : nat) (n : Z) :
  (1 <= k)%nat -> 0 <= n < 10 ^ Z.of_nat k -> (String.length (fmt_u n) <= k)%nat.
Proof. intros Hk Hn. by apply udigits_length. Qed.

Lemma long_max_32 (long_bits : Z) : 32 <= long_bits -> 2 ^ 31 - 1 <= LONG_MAX long_bits.
Proof.
  intros Hbits. unfold LONG_MAX.
  pose proof (Z.pow_le_mono_r 2 31 (long_bits - 1) ltac:(lia) ltac:(lia)). lia.
Qed.

(** [srf05_read_distance] reads back a tick count the module printed. *)
Lemma read_distance_shown (long_bits : Z) (w : world) (unit : string) (n : Z) :
  32 <= long_bits -> 0 <= n < 10 ^ 6 ->
  fopen_r w (snprintf 128 (DATA_FILE_PREFIX +:+ unit)) = Some (fmt_u n +:+ str LF) ->
  srf05_read_distance long_bits w unit = n.
Proof.
  intros Hbits Hn Hopen. unfold srf05_read_distance. rewrite Hopen.
  change (str LF) with (String LF "").
  rewrite read_line_digits.
  - assert (exists c t, fmt_u n +:+ str LF = String c t) as (c & t & Hline).
    { destruct (udigits_head (Z.to_nat (Z.log2 n)) n) as (d & s & _ & Hhead).
      unfold fmt_u. rewrite Hhead. by eexists _, _. }
    rewrite Hline. cbn iota. rewrite <- Hline.
    apply atol_fmt_u. pose proof (long_max_32 long_bits Hbits). lia.
  - apply udigits_all_digits. lia.
  - pose proof (fmt_u_length 6 n ltac:(lia) Hn). lia.
Qed.

(** What the module shows for its attributes, in a reachable state with
    a positive divisor. *)
Lemma sysfs_files_shown (long_bits : Z) (m : module_state) :
  32 <= long_bits -> reachable m -> 0 < srf05_cmdiv m ->
  sysfs_files long_bits m
  = Some (<[sysfs_path "distance_raw" := fmt_u (distance m) +:+ str LF]>
          (<[sysfs_path "distance_cm"
               := fmt_u (distance m / srf05_cmdiv m) +:+ str LF]>
           (<[sysfs_path "status" := sysfs_status_show m]> ∅))).
Proof.
  intros Hbits [_ Hdiv]%reachable_bounds Hpos.
  unfold sysfs_files, sysfs_distance_cm_show, sysfs_distance_raw_show, to_ulong,
    ULONG_MODULUS.
  pose proof (Z.pow_le_mono_r 2 31 long_bits ltac:(lia) ltac:(lia)).
  rewrite Z.mod_small by lia.
  by destruct (Z.eqb_spec (srf05_cmdiv m) 0); [lia|].
Qed.

Lemma published_files (long_bits : Z) (m : module_state) (w : world) :
  32 <= long_bits -> reachable m -> 0 < srf05_cmdiv m -> publishes long_bits m w ->
  fopen_r w "/sys/kernel/srf05/distance_raw" = Some (fmt_u (distance m) +:+ str LF)
  /\ fopen_r w "/sys/kernel/srf05/distance_cm"
     = Some (fmt_u (distance m / srf05_cmdiv m) +:+ str LF)
  /\ fopen_r w "/sys/kernel/srf05/status" = Some (sysfs_status_show m).
Proof.
  intros Hbits Hreach Hpos (fs & Hfs & Hsub).
  rewrite sysfs_files_shown in Hfs by done. injection Hfs as <-.
  unfold fopen_r.
  repeat split; eapply lookup_weaken; try exact Hsub; by simplify_map_eq.
Qed.

(** The status string read beside a module: its label. *)
Lemma read_status_shown (m : module_state) (w : world) :
  fopen_r w "/sys/kernel/srf05/status" = Some (sysfs_status_show m) ->
  srf05_read_status w (uninitialised w 32) 32 ≫= c_string
  = Ok (if status m =? 1 then "ERROR" else "OPERATIONAL").
Proof.
  intros Hopen. unfold srf05_read_status. change STATUS_FILE with "/sys/kernel/srf05/status".
  rewrite Hopen. unfold sysfs_status_show. by destruct (status m =? 1).
Qed.

Lemma fmt_d_length (n : Z) : 0 <= n < 10 ^ 6 -> (String.length (fmt_d n) <= 6)%nat.
Proof.
  intros Hn. unfold fmt_d. destruct (Z.ltb_spec n 0); [lia|].
  by apply fmt_u_length; [lia|].
Qed.

(** Claim C4, as amended. Beside a module in a reachable state whose
    divisor is positive, with the three attributes readable as the module
    shows them for that state: the raw value the service reads is the
    module's tick count and the centimetre value is the raw value divided
    by the divisor (C's integer division, which is the rounding down
    here); the latest-value reply prints these two values, and the entry
    [add_history] adds has them in [draw] and [dcm]. *)
Theorem published_cm_is_raw_over_divisor (long_bits : Z) (localtime : Z -> tm)
        (m : module_state) (w : world) (n : Z) (rs : list history_entry)
        (h : history_table) :
  32 <= long_bits -> reachable m -> 0 < srf05_cmdiv m -> publishes long_bits m w ->
  0 < n -> holds n rs h ->
  let raw := srf05_read_distance long_bits w "raw" in
  let cm := srf05_read_distance long_bits w "cm" in
  raw = distance m
  /\ cm = Z.quot raw (srf05_cmdiv m)
  /\ cm = raw / srf05_cmdiv m
  /\ (exists label,
        begin_request_handler long_bits localtime w h "/sensor/srf05"
        = Ok {| returned := 1;
                sent := http_reply (Z.of_nat (String.length (latest_text raw cm label)))
                          (latest_text raw cm label) |})
  /\ (forall h',
        add_history long_bits w h = Ok h' ->
        exists e,
          entry_at h' (curr h') = Ok e
          /\ draw e = raw /\ dcm e = Z.quot (draw e) (srf05_cmdiv m)).
Proof.
  intros Hbits Hreach Hpos Hpub Hn Hholds raw cm.
  destruct (published_files long_bits m w Hbits Hreach Hpos Hpub)
    as (Hraw & Hcm & Hstatus).
  pose proof (reachable_bounds m Hreach) as [Hdist _].
  unfold MEASURE_XMIT_TIMEOUT in Hdist.
  assert (0 <= distance m / srf05_cmdiv m <= distance m) as Hquot.
  { split; [apply Z.div_pos; lia|]. apply Z.div_le_upper_bound; nia. }
  assert (raw = distance m) as Hraw'.
  { apply read_distance_shown; [done|lia|done]. }
  assert (cm = distance m / srf05_cmdiv m) as Hcm'.
  { apply read_distance_shown; [done|lia|done]. }
  split; [done|]. split; [by rewrite Hcm', Hraw', Z.quot_div_nonneg by lia|].
  split; [by rewrite Hcm', Hraw'|]. split.
  - exists (if status m =? 1 then "ERROR" else "OPERATIONAL").
    unfold begin_request_handler. cbn [String.eqb Ascii.eqb Bool.eqb].
    pose proof (read_status_shown m w Hstatus) as Hlabel.
    destruct (srf05_read_status w (uninitialised w 32) 32) as [buf|]; [|done].
    cbn [mbind result_bind] in Hlabel |- *. rewrite Hlabel.
    cbn [mbind result_bind]. fold raw. fold cm.
    rewrite snprintf_fits; [done|].
    pose proof (fmt_d_length raw ltac:(lia)). pose proof (fmt_d_length cm ltac:(lia)).
    unfold latest_text, quoted. rewrite !length_app_s.
    replace (Z.to_nat (MAX_HISTORY * 128)) with (Z.to_nat 6144) by reflexivity.
    destruct (status m =? 1); cbn; lia.
  - intros h' Hadd.
    destruct (add_history_holds long_bits n rs w h h' Hn Hholds Hadd)
      as (e & Hread & Hholds').
    exists e. split; [by apply (holds_newest n rs)|].
    unfold reading in Hread.
    destruct (srf05_read_status w (uninitialised w 32) 32) as [buf|]; [|done].
    cbn [mbind result_bind] in Hread.
    destruct (c_string buf); [|done]. cbn [mbind result_bind] in Hread.
    injection Hread as <-. cbn [draw dcm]. fold raw. fold cm.
    split; [done|]. by rewrite Hcm', Hraw', Z.quot_div_nonneg by lia.
Qed.

(** The state the example line leaves a freshly loaded module in. *)
Lemma example_state_reachable :
  reachable (set_distance 6 (set_status 0 module_init)).
Proof.
  apply (reachable_measure example_line module_init).
  - by apply (reachable_init 20 450 20).
  - by vm_compute.
Qed.

(** Claim C4, as amended, beside the module after a measurement of 6
    ticks with the default divisor of 450: raw 6, 0 cm. *)
Lemma published_cm_after_example_line :
  let m := set_distance 6 (set_status 0 module_init) in
  let w := sensor_world 64 m 1352466307 in
  32 <= 64 /\ reachable m /\ 0 < srf05_cmdiv m /\ publishes 64 m w
  /\ 0 < 48 /\ holds 48 [] history
  /\ srf05_read_distance 64 w "raw" = 6
  /\ srf05_read_distance 64 w "cm" = Z.quot 6 450.
Proof.
  intros m w.
  assert (publishes 64 m w) as Hpub.
  { exists (default ∅ (sysfs_files 64 m)). by split. }
  split; [lia|]. split; [exact example_state_reachable|]. split; [by cbn|].
  split; [exact Hpub|]. split; [lia|]. split; [by apply holds_empty|].
  destruct (published_cm_is_raw_over_divisor 64 example_localtime m w 48 [] history
              ltac:(lia) example_state_reachable ltac:(by cbn) Hpub ltac:(lia)
              (holds_empty 48 ltac:(lia)))
    as (Hraw & Hcm & _).
  split; [exact Hraw|]. by rewrite Hcm, Hraw.
Defined.

(** Claim C4 as stated does not hold of every reading. Without the module
    loaded no attribute can be opened: the reading has [draw = -1] and
    [dcm = -1], the latest-value reply prints both, and -1 divided by
    the divisor is 0 in C, not -1. And when only the raw distance can be
    read, as 900, the reading has [dcm = -1], which is not 900 over 450
    however the division rounds. *)
Lemma unreadable_cm_is_not_raw_over_divisor :
  (exists e,
      reading 64 (bare_world 1352466307) = Ok e
      /\ draw e = -1 /\ dcm e = -1
      /\ dcm e <> Z.quot (draw e) (srf05_cmdiv module_init)
      /\ begin_request_handler 64 example_localtime (bare_world 1352466307)
           history "/sensor/srf05"
         = Ok {| returned := 1;
                 sent := http_reply 63 (latest_text (draw e) (dcm e) "UNKNOWN") |})
  /\ (exists e,
        reading 64 (raw_only_world 1352466307) = Ok e
        /\ draw e = 900 /\ dcm e = -1
        /\ dcm e <> Z.quot (draw e) (srf05_cmdiv module_init)
        /\ dcm e <> draw e / srf05_cmdiv module_init).
Proof.
  split; eexists; (split; [reflexivity|]); cbn [draw dcm]; repeat split;
    try discriminate; reflexivity.
Qed.
End Boundary.

(** ** The queries *)

Section Queries.
Import CText Srf05Mod Srf05Web Bridge.

(** Claim C8. A history query on a store without entries is answered,
    with no entry walked and the content [{ "history" : [ ] }]: a
    well-formed JSON text that denotes the same document as
    [{"history": []}], an object whose member "history" is the empty
    array. *)
Theorem history_query_on_empty_store (long_bits : Z) (localtime : Z -> tm)
        (w : world) (h : history_table) :
  count h = 0 ->
  let content := "{ " +:+ quoted "history" +:+ " : [ ] }" in
  snapshot_newest_first localtime h = Ok []
  /\ begin_request_handler long_bits localtime w h "/sensor/srf05/history"
     = Ok {| returned := 1; sent := http_reply 19 content |}
  /\ Json.parse content = Some (Json.Object [("history", Json.Array [])])
  /\ Json.parse content = Json.parse ("{" +:+ quoted "history" +:+ ": []}").
Proof.
  intros Hcount content. unfold snapshot_newest_first, begin_request_handler.
  rewrite Hcount. repeat split.
Qed.

(** The query on the [history] the service starts with. *)
Lemma history_query_on_empty_store_initially :
  count history = 0
  /\ begin_request_handler 64 example_localtime (bare_world 0) history
       "/sensor/srf05/history"
     = Ok {| returned := 1;
             sent := http_reply 19 ("{ " +:+ quoted "history" +:+ " : [ ] }") |}.
Proof.
  split; [reflexivity|].
  apply (history_query_on_empty_store 64 example_localtime (bare_world 0) history).
  reflexivity.
Defined.

(** Claim C5. When none of the three sysfs files can be opened, the
    latest-value query is answered all the same: the handler returns 1 and
    sends a well-formed JSON object with distance_raw -1, distance_cm -1
    and status "UNKNOWN". *)
Theorem latest_query_without_bridge (long_bits : Z) (localtime : Z -> tm)
        (w : world) (h : history_table) :
  fopen_r w "/sys/kernel/srf05/distance_raw" = None ->
  fopen_r w "/sys/kernel/srf05/distance_cm" = None ->
  fopen_r w "/sys/kernel/srf05/status" = None ->
  let content := latest_text (-1) (-1) "UNKNOWN" in
  begin_request_handler long_bits localtime w h "/sensor/srf05"
  = Ok {| returned := 1; sent := http_reply 63 content |}
  /\ content = "{" +:+ quoted "distance_raw" +:+ " : -1, " +:+ quoted "distance_cm"
                  +:+ " : -1, " +:+ quoted "status" +:+ " : " +:+ quoted "UNKNOWN" +:+ "}"
  /\ Json.parse content
     = Some (Json.Object [("distance_raw", Json.Literal "-1");
                          ("distance_cm", Json.Literal "-1");
                          ("status", Json.Text "UNKNOWN")]).
Proof.
  intros Hraw Hcm Hstatus content. split; [|split; reflexivity].
  unfold begin_request_handler, srf05_read_status, srf05_read_distance.
  change (snprintf 128 (DATA_FILE_PREFIX +:+ "raw")) with "/sys/kernel/srf05/distance_raw".
  change (snprintf 128 (DATA_FILE_PREFIX +:+ "cm")) with "/sys/kernel/srf05/distance_cm".
  change STATUS_FILE with "/sys/kernel/srf05/status".
  rewrite Hraw, Hcm, Hstatus. reflexivity.
Qed.

(** The query with the module not loaded. *)
Lemma latest_query_without_bridge_unloaded :
  fopen_r (bare_world 0) "/sys/kernel/srf05/distance_raw" = None
  /\ fopen_r (bare_world 0) "/sys/kernel/srf05/distance_cm" = None
  /\ fopen_r (bare_world 0) "/sys/kernel/srf05/status" = None
  /\ exists reply,
      begin_request_handler 64 example_localtime (bare_world 0) history "/sensor/srf05"
      = Ok {| returned := 1; sent := reply |}.
Proof.
  do 3 (split; [reflexivity|]). eexists.
  apply (latest_query_without_bridge 64 example_localtime (bare_world 0) history);
    reflexivity.
Defined.
End Queries.

(** * Further properties of the code *)

(** ** The module: measurements, attributes, life cycle *)

Section Module.
Import CText Srf05Mod Srf05Life.

(** Property X1. A call of [measure] never changes the module's
    parameters; it leaves a status of 0 or 1, and a raw distance that is
    within the budget of the echo-width wait if it was before. *)
Theorem measure_keeps_parameters_and_bounds (gpio : line) (m m' : module_state) :
  measure gpio m = Some m' ->
  srf05_gpio m' = srf05_gpio m /\ srf05_cmdiv m' = srf05_cmdiv m
  /\ srf05_updiv m' = srf05_updiv m
  /\ (status m' = 0 \/ status m' = 1)
  /\ (0 <= distance m < MEASURE_XMIT_TIMEOUT ->
      0 <= distance m' < MEASURE_XMIT_TIMEOUT).
Proof.
  intros Hmeasure.
  destruct (measure_cases gpio m)
    as [[_ Heq]|[(k & _ & _ & Heq)|(k & n & _ & (Hn & _) & Heq)]];
    rewrite Heq in Hmeasure; injection Hmeasure as <-; cbn;
    repeat split; auto; lia.
Qed.

Lemma measure_keeps_parameters_example :
  measure example_line module_init = Some (set_distance 6 (set_status 0 module_init))
  /\ srf05_cmdiv (set_distance 6 (set_status 0 module_init)) = 450
  /\ 0 <= distance (set_distance 6 (set_status 0 module_init)) < MEASURE_XMIT_TIMEOUT.
Proof.
  assert (measure example_line module_init
          = Some (set_distance 6 (set_status 0 module_init))) as Hmeasure
    by (by vm_compute).
  split; [exact Hmeasure|].
  destruct (measure_keeps_parameters_and_bounds example_line module_init _ Hmeasure)
    as (_ & Hcmdiv & _ & _ & Hbound).
  split; [exact Hcmdiv|]. apply Hbound. by vm_compute.
Defined.

(** Property X2. The centimetre attribute divides in [unsigned long]: with
    a negative divisor it shows 0 in every reachable state, and with a
    divisor of 0 a read of it divides by zero. *)
Theorem cm_show_negative_or_zero_divisor (long_bits : Z) (m : module_state) :
  32 <= long_bits -> reachable m ->
  (srf05_cmdiv m < 0 ->
   sysfs_distance_cm_show long_bits m = Some ("0" +:+ str LF))
  /\ (srf05_cmdiv m = 0 ->
      sysfs_distance_cm_show long_bits m = None
      /\ sysfs_files long_bits m = None).
Proof.
  intros Hbits [Hdist Hdiv]%reachable_bounds.
  unfold MEASURE_XMIT_TIMEOUT in Hdist.
  unfold sysfs_files, sysfs_distance_cm_show, to_ulong, ULONG_MODULUS.
  pose proof (Z.pow_le_mono_r 2 32 long_bits ltac:(lia) ltac:(lia)) as Hpow.
  split.
  - intros Hneg.
    assert (srf05_cmdiv m mod 2 ^ long_bits = 2 ^ long_bits + srf05_cmdiv m) as ->.
    { symmetry. apply (Z.mod_unique_pos _ _ (-1)); lia. }
    destruct (Z.eqb_spec (2 ^ long_bits + srf05_cmdiv m) 0) as [|_]; [lia|].
    by rewrite Z.div_small by lia.
  - intros ->. by rewrite Z.mod_0_l by lia.
Qed.

Lemma cm_show_negative_divisor_example :
  let m := {| srf05_gpio := 20; srf05_cmdiv := -450; srf05_updiv := 20;
              distance := 0; status := 0 |} in
  32 <= 64 /\ reachable m /\ srf05_cmdiv m < 0
  /\ sysfs_distance_cm_show 64 m = Some ("0" +:+ str LF).
Proof.
  intros m.
  assert (reachable m) as Hreach by (by apply (reachable_init 20 (-450) 20)).
  split; [lia|]. split; [exact Hreach|]. split; [by cbn|].
  by apply (cm_show_negative_or_zero_divisor 64 m ltac:(lia) Hreach).
Defined.

(** [measure] returns, and the update divisor is the one from before. *)
Lemma measure_timeout_cases (gpio : line) (m : module_state) :
  exists m', measure gpio m = Some m' /\ srf05_updiv m' = srf05_updiv m.
Proof.
  destruct (measure_cases gpio m)
    as [[_ Heq]|[(k & _ & _ & Heq)|(k & n & _ & _ & Heq)]];
    rewrite Heq; by eexists.
Qed.

Section Life.
Variable long_bits : Z.
Variable HZ : Z.
Variable ENOMEM : Z.

(** Property X3. When [srf05_init] fails it returns [-ENOMEM] or the
    code of the kernel call that failed, and it leaves nothing held: no
    kobject, no attribute file, no requested line, no pending timer. *)
Theorem init_failure_holds_nothing (p : probe) (m : module_state)
        (ret : Z) (k : kernel) :
  srf05_init long_bits HZ ENOMEM p m unloaded = Some (ret, k) ->
  ret <> 0 ->
  (ret = - ENOMEM \/ ret = group_ret p \/ ret = gpio_ret p)
  /\ kobject k = false /\ attributes k = false
  /\ gpio_requested k = false /\ timer_expires k = None.
Proof.
  unfold srf05_init. intros Hinit Hret.
  destruct (kobject_created p); cbn [negb] in Hinit;
    [|injection Hinit as <- <-; by auto].
  destruct (Z.eqb_spec (group_ret p) 0) as [Hgroup|Hgroup]; cbn [negb] in Hinit;
    [|injection Hinit as <- <-; by auto].
  destruct (Z.eqb_spec (gpio_ret p) 0) as [Hgpio|Hgpio]; cbn [negb] in Hinit;
    [|injection Hinit as <- <-; by auto 6].
  destruct (next_expiry long_bits HZ (jiffies_at_init p) m); [|done].
  cbn in Hinit. injection Hinit as <- <-. lia.
Qed.

(** Property X4. When [srf05_init] returns 0 the kobject, its attribute
    files and the data line are held and the timer is pending, due
    [SCAN_DELAY / srf05_updiv] ticks after the [jiffies] of the call;
    [srf05_exit] then gives all of it back. *)
Theorem init_success_then_exit (p : probe) (m : module_state) (k : kernel) :
  srf05_init long_bits HZ ENOMEM p m unloaded = Some (0, k) ->
  ENOMEM <> 0 ->
  kobject k = true /\ attributes k = true /\ gpio_requested k = true
  /\ timer_expires k
     = Some (to_ulong long_bits
               (jiffies_at_init p + Z.quot (10 * HZ) (srf05_updiv m)))
  /\ kobject (srf05_exit k) = false /\ attributes (srf05_exit k) = false
  /\ gpio_requested (srf05_exit k) = false
  /\ timer_expires (srf05_exit k) = None.
Proof.
  unfold srf05_init. intros Hinit Hnomem.
  destruct (kobject_created p); cbn [negb] in Hinit;
    [|injection Hinit as Hret _; lia].
  destruct (Z.eqb_spec (group_ret p) 0) as [Hgroup|Hgroup]; cbn [negb] in Hinit;
    [|injection Hinit as Hret _; lia].
  destruct (Z.eqb_spec (gpio_ret p) 0) as [Hgpio|Hgpio]; cbn [negb] in Hinit;
    [|injection Hinit as Hret _; lia].
  unfold next_expiry, SCAN_DELAY in Hinit.
  destruct (srf05_updiv m =? 0); [done|].
  cbn in Hinit. injection Hinit as _ <-. by repeat split.
Qed.

(** Property X5. [measure_timer_func] re-arms the timer after every
    measurement, timed out or not, [SCAN_DELAY / srf05_updiv] ticks after
    the [jiffies] of the firing; the module's variables are those
    [measure] leaves. With an update divisor of 0 the firing divides by
    zero instead, and so does [srf05_init] once it holds the kobject and
    the line. *)
Theorem timer_rearmed_unless_zero_divisor (gpio : line) (jiffies : Z)
        (m : module_state) (k : kernel) :
  exists m',
    measure gpio m = Some m'
    /\ (srf05_updiv m <> 0 ->
        measure_timer_func long_bits HZ gpio jiffies m k
        = Some (m', set_timer
                      (Some (to_ulong long_bits
                               (jiffies + Z.quot (10 * HZ) (srf05_updiv m)))) k))
    /\ (srf05_updiv m = 0 ->
        measure_timer_func long_bits HZ gpio jiffies m k = None
        /\ forall p,
            kobject_created p = true -> group_ret p = 0 -> gpio_ret p = 0 ->
            srf05_init long_bits HZ ENOMEM p m unloaded = None).
Proof.
  destruct (measure_timeout_cases gpio m) as (m' & Hmeasure & Hupdiv).
  exists m'. split; [done|].
  unfold measure_timer_func, next_expiry, SCAN_DELAY. rewrite Hmeasure. cbn [mbind option_bind].
  rewrite Hupdiv. split.
  - intros Hdiv. by destruct (Z.eqb_spec (srf05_updiv m) 0).
  - intros Hzero. rewrite Hzero. split; [done|].
    intros p Hkobj Hgroup Hgpio. unfold srf05_init, next_expiry.
    by rewrite Hkobj, Hgroup, Hgpio, Hzero.
Qed.
End Life.

(** Property X3 with a line that is busy: [gpio_request_one] answers -16
    and [srf05_init] hands it on, with the kobject released again. *)
Lemma init_failure_busy_line :
  let p := {| kobject_created := true; group_ret := 0; gpio_ret := -16;
              jiffies_at_init := 1000 |} in
  exists k,
    srf05_init 64 250 12 p module_init unloaded = Some (-16, k)
    /\ -16 <> 0
    /\ kobject k = false /\ attributes k = false
    /\ gpio_requested k = false /\ timer_expires k = None.
Proof.
  intros p.
  destruct (srf05_init 64 250 12 p module_init unloaded) as [[ret k]|] eqn:Hinit;
    [|by vm_compute in Hinit].
  assert (ret = -16) as -> by (vm_compute in Hinit; by injection Hinit as <- _).
  exists k. split; [done|]. split; [done|].
  by apply (init_failure_holds_nothing 64 250 12 p module_init (-16) k).
Defined.

(** Property X4 with all three calls succeeding at 1000 jiffies, 250
    ticks a second and the default update divisor of 20: the timer is due
    at 1125. *)
Lemma init_success_example :
  let p := {| kobject_created := true; group_ret := 0; gpio_ret := 0;
              jiffies_at_init := 1000 |} in
  exists k,
    srf05_init 64 250 12 p module_init unloaded = Some (0, k)
    /\ 12 <> 0
    /\ timer_expires k = Some 1125
    /\ gpio_requested (srf05_exit k) = false
    /\ kobject (srf05_exit k) = false.
Proof.
  intros p.
  destruct (srf05_init 64 250 12 p module_init unloaded) as [[ret k]|] eqn:Hinit;
    [|by vm_compute in Hinit].
  assert (ret = 0) as -> by (vm_compute in Hinit; by injection Hinit as <- _).
  exists k. split; [done|]. split; [done|].
  destruct (init_success_then_exit 64 250 12 p module_init k Hinit ltac:(done))
    as (_ & _ & _ & Htimer & Hkobj & _ & Hgpio & _).
  split; [exact Htimer|]. by split.
Defined.

(** Property X5 on the example line, fired at 1125 jiffies: the timer is
    due again at 1250. *)
Lemma timer_rearmed_example :
  srf05_updiv module_init <> 0
  /\ exists m',
      measure_timer_func 64 250 example_line 1125 module_init unloaded
      = Some (m', set_timer (Some 1250) unloaded).
Proof.
  split; [done|].
  destruct (timer_rearmed_unless_zero_divisor 64 250 12 example_line 1125
              module_init unloaded) as (m' & _ & Hrearm & _).
  exists m'. by apply Hrearm.
Defined.
End Module.

(** ** The service: reading the attribute files *)

Section SensorFiles.
Import CText Srf05Mod Srf05Web Bridge Lines.

(** [atol] of a text that starts with neither white space, a sign nor a
    digit. *)
Lemma atol_no_number (long_bits : Z) (c : ascii) (tail : string) :
  isspace c = false -> isdigit c = false -> c <> "-"%char -> c <> "+"%char ->
  atol long_bits (String c tail)
  = Z.max (LONG_MIN long_bits) (Z.min (LONG_MAX long_bits) 0).
Proof.
  intros Hspace Hdigit Hminus Hplus.
  destruct c as [[] [] [] [] [] [] [] []];
    first [ by vm_compute in Hspace | by vm_compute in Hdigit
          | by destruct Hminus | by destruct Hplus | reflexivity ].
Qed.

Lemma clamp_small (long_bits v : Z) :
  1 <= long_bits -> -1 <= v <= 0 ->
  Z.max (LONG_MIN long_bits) (Z.min (LONG_MAX long_bits) v) = v.
Proof.
  intros Hbits Hv. unfold LONG_MIN, LONG_MAX.
  pose proof (Z.pow_le_mono_r 2 0 (long_bits - 1) ltac:(lia) ltac:(lia)) as Hpow.
  change (2 ^ 0) with 1 in Hpow. lia.
Qed.

(** Property X6. [srf05_read_distance] returns the sentinel -1 for a file
    that cannot be opened and for one that is empty; a file whose text
    starts with neither white space, a sign nor a digit reads as 0. *)
Theorem read_distance_without_number (long_bits : Z) (w : world) (unit : string) :
  1 <= long_bits ->
  let path := snprintf 128 (DATA_FILE_PREFIX +:+ unit) in
  (fopen_r w path = None -> srf05_read_distance long_bits w unit = -1)
  /\ (fopen_r w path = Some "" -> srf05_read_distance long_bits w unit = -1)
  /\ (forall c rest,
        fopen_r w path = Some (String c rest) ->
        isspace c = false -> isdigit c = false ->
        c <> "-"%char -> c <> "+"%char ->
        srf05_read_distance long_bits w unit = 0).
Proof.
  intros Hbits path. unfold srf05_read_distance. fold path.
  split; [by intros ->|]. split.
  - intros ->. cbn [read_line]. by apply (clamp_small long_bits (-1)).
  - intros c rest -> Hspace Hdigit Hminus Hplus.
    assert (Ascii.eqb c LF = false) as Hlf.
    { apply Ascii.eqb_neq. intros ->. by vm_compute in Hspace. }
    change (read_line 31 (String c rest))
      with (if Ascii.eqb c LF then str c else String c (read_line 30 rest)).
    rewrite Hlf, atol_no_number by done. by apply clamp_small.
Qed.

(** Property X6 on a raw attribute that reads "n/a": the service takes
    it for a distance of 0. *)
Lemma read_distance_not_a_number :
  let w := world_of {[sysfs_path "distance_raw" := "n/a" +:+ str LF]} 0 in
  1 <= 64
  /\ fopen_r w (snprintf 128 (DATA_FILE_PREFIX +:+ "raw")) = Some ("n/a" +:+ str LF)
  /\ srf05_read_distance 64 w "raw" = 0.
Proof.
  intros w. split; [lia|]. split; [reflexivity|].
  destruct (read_distance_without_number 64 w "raw" ltac:(lia)) as (_ & _ & Hword).
  by apply (Hword "n"%char ("/a" +:+ str LF)).
Defined.








(** Property X8. When the status file cannot be opened, the caller's
    buffer holds "UNKNOWN" if it has at least 8 bytes; in a smaller one
    [strncpy] leaves the letters that fit and no terminator, so reading
    it as a string runs past its end. *)
Theorem read_status_unknown_needs_eight_bytes (w : world) (status : buffer)
        (len : Z) :
  fopen_r w STATUS_FILE = None ->
  Z.of_nat (length status) = len ->
  (8 <= len -> srf05_read_status w status len ≫= c_string = Ok "UNKNOWN")
  /\ (len < 8 ->
      exists buf,
        srf05_read_status w status len = Ok buf
        /\ length buf = length status
        /\ c_string buf = Fault OutOfBounds).
Proof.
  intros Hopen Hlen. unfold srf05_read_status, strncpy, blit. rewrite Hopen.
  assert (length status = Z.to_nat len) as Hsize by lia.
  split; intros Hroom.
  - destruct (Z.to_nat len) as [|[|[|[|[|[|[|[|k]]]]]]]] eqn:Hk; try lia.
    cbn [list_ascii_of_string app take replicate length].
    rewrite length_take. cbn [length]. rewrite length_replicate, Hsize.
    destruct (decide _) as [_|Hbad]; [|lia]. reflexivity.
  - destruct (Z.to_nat len) as [|[|[|[|[|[|[|[|k]]]]]]]] eqn:Hk; try lia;
      cbn [list_ascii_of_string app take replicate length];
      rewrite Hsize; (destruct (decide _) as [_|Hbad]; [|lia]);
      rewrite drop_ge by lia; eexists; (split; [reflexivity|]);
      by split.
Qed.

(** Property X8 with the 32 bytes the service passes, and with 4. *)
Lemma read_status_unknown_sizes :
  let w := bare_world 0 in
  fopen_r w STATUS_FILE = None
  /\ Z.of_nat (length (uninitialised w 32)) = 32 /\ 8 <= 32
  /\ srf05_read_status w (uninitialised w 32) 32 ≫= c_string = Ok "UNKNOWN"
  /\ Z.of_nat (length (uninitialised w 4)) = 4 /\ 4 < 8
  /\ srf05_read_status w (uninitialised w 4) 4 ≫= c_string = Fault OutOfBounds.
Proof.
  intros w. do 3 (split; [done|]).
  destruct (read_status_unknown_needs_eight_bytes w (uninitialised w 32) 32
              eq_refl eq_refl) as [Hfits _].
  split; [by apply Hfits|]. do 2 (split; [done|]).
  destruct (read_status_unknown_needs_eight_bytes w (uninitialised w 4) 4
              eq_refl eq_refl) as [_ Hsmall].
  destruct (Hsmall ltac:(lia)) as (buf & -> & _ & Hstring). exact Hstring.
Defined.


End SensorFiles.
(** ** The service: the history and its files *)

Section HistoryFiles.
Import CText Srf05Mod Srf05Web Bridge Tables.

(** Property X10. On a well-formed table [add_history] writes one slot,
    the one after the cursor (slot 0 after the last), and leaves every
    other slot as it was; the cursor moves there, the count grows by one
    up to [size], and the table stays well formed. The slot then holds
    the reading taken. *)
Theorem add_history_changes_one_slot (long_bits : Z) (w : world)
        (h h' : history_table) :
  well_formed h ->
  add_history long_bits w h = Ok h' ->
  well_formed h'
  /\ size h' = size h
  /\ curr h' = (curr h + 1) mod size h
  /\ count h' = Z.min (count h + 1) (size h)
  /\ (exists e,
        reading long_bits w = Ok e
        /\ entries h' !! Z.to_nat (curr h') = Some e)
  /\ forall i : nat,
      i <> Z.to_nat (curr h') -> entries h' !! i = entries h !! i.
Proof.
  intros (Hsize & Hlen & Hcurr & Hcount) Hadd.
  destruct (add_history_reads long_bits w h h' Hadd) as [e Hread].
  assert ((if curr h + 1 >=? size h then 0 else curr h + 1)
          = (curr h + 1) mod size h) as Hpos.
  { rewrite Z.geb_leb. destruct (Z.leb_spec (size h) (curr h + 1)).
    - replace (curr h + 1) with (size h) by lia. by rewrite Z.mod_same by lia.
    - by rewrite Z.mod_small by lia. }
  pose proof (Z.mod_pos_bound (curr h + 1) (size h) Hsize) as Hrange.
  rewrite (add_history_stores long_bits w h e) in Hadd;
    [|rewrite Hpos; lia|done].
  injection Hadd as <-. rewrite Hpos. cbn [entries size curr count].
  split.
  { unfold well_formed. cbn [entries size curr count]. rewrite length_insert.
    destruct (Z.ltb_spec (count h) (size h)); lia. }
  split; [done|]. split; [done|].
  split; [destruct (Z.ltb_spec (count h) (size h)); lia|]. split.
  - exists e. split; [done|]. apply list_lookup_insert_eq. lia.
  - intros i Hi. by apply list_lookup_insert_ne.
Qed.

(** Property X10 on the empty [history] without the module loaded. *)
Lemma add_history_first_slot :
  well_formed history
  /\ exists h',
      add_history 64 (bare_world 1352466307) history = Ok h'
      /\ curr h' = 0 /\ count h' = 1 /\ size h' = 48.
Proof.
  assert (well_formed history) as Hwf by (by vm_compute).
  split; [exact Hwf|].
  destruct (add_history 64 (bare_world 1352466307) history) as [h'|] eqn:Hadd;
    [|by vm_compute in Hadd].
  destruct (add_history_changes_one_slot 64 _ history h' Hwf Hadd)
    as (_ & Hsize & Hcurr & Hcount & _).
  exists h'. split; [done|]. split; [exact Hcurr|]. split; [exact Hcount|exact Hsize].
Defined.

(** [add_history] on a well-formed table returns when the reading can be
    taken. *)
Lemma add_history_returns_reading (long_bits : Z) (w : world) (h : history_table)
      (e : history_entry) :
  well_formed h -> reading long_bits w = Ok e ->
  exists h', add_history long_bits w h = Ok h'.
Proof.
  intros (Hsize & Hlen & Hcurr & Hcount) Hread.
  eexists. apply (add_history_stores long_bits w h e); [|done].
  rewrite Z.geb_leb. destruct (Z.leb_spec (size h) (curr h + 1)); lia.
Qed.

(** A reading can be taken whenever the status file cannot be opened or
    reads as the module shows it. *)
Lemma reading_returns (long_bits : Z) (w : world) :
  (fopen_r w STATUS_FILE = None
   \/ exists m, fopen_r w STATUS_FILE = Some (sysfs_status_show m)) ->
  exists e, reading long_bits w = Ok e.
Proof.
  intros Hstatus. unfold reading. destruct Hstatus as [Hnone|[m Hshown]].
  - pose proof (read_status_unreadable w Hnone) as Hlabel.
    destruct (srf05_read_status w (uninitialised w 32) 32); [|done].
    cbn [mbind result_bind] in Hlabel |- *. rewrite Hlabel. by eexists.
  - pose proof (read_status_shown m w Hshown) as Hlabel.
    destruct (srf05_read_status w (uninitialised w 32) 32); [|done].
    cbn [mbind result_bind] in Hlabel |- *. rewrite Hlabel. by eexists.
Qed.



(** A table that holds entries is well formed. *)
Lemma holds_well_formed (n : Z) (rs : list history_entry) (h : history_table) :
  0 < n -> holds n rs h -> well_formed h.
Proof.
  intros Hn [Hsize Hlen Hcount Hcurr _]. unfold well_formed.
  rewrite Hsize, Hlen, Hcount, Hcurr.
  destruct (decide (rs = [])); [lia|].
  pose proof (slot_range n (Z.of_nat (length rs)) 0 Hn). lia.
Qed.

(** One firing with a reading at hand and the file of the day free. *)
Lemma history_tick_of_reading (long_bits : Z) (localtime : Z -> tm) (n : Z) (rs : list history_entry) (w : world)
      (h : history_table) (e : history_entry) :
  0 < n -> holds n rs h ->
  reading long_bits w = Ok e ->
  let lt := localtime (now w) in
  let name := history_file_name lt in
  name ∉ locked w ->
  exists w' h',
    history_tick long_bits localtime w h = (w', Ok h')
    /\ holds n (rs ++ [e]) h'
    /\ ts e = now w
    /\ w' = set_files
              (<[name := default "" (files w !! name) +:+ csv_line lt e]> (files w)) w.
Proof.
  intros Hn Hholds Hread lt name Hfree.
  destruct (add_history_returns_reading long_bits w h e
              (holds_well_formed n rs h Hn Hholds) Hread) as [h' Hadd].
  destruct (add_history_holds long_bits n rs w h h' Hn Hholds Hadd)
    as (e' & Hread' & Hholds').
  assert (e' = e) as -> by congruence.
  assert (ts e = now w) as Hts.
  { unfold reading in Hread.
    destruct (srf05_read_status w (uninitialised w 32) 32); [|done].
    cbn [mbind result_bind] in Hread. destruct (c_string _); [|done].
    by injection Hread as <-. }
  unfold history_tick. rewrite Hadd.
  rewrite (dump_history_newest localtime w h' e (holds_newest n rs e h' Hn Hholds')).
  rewrite Hts. fold lt. fold name. rewrite decide_False by done.
  by eexists _, _.
Qed.

(** Property X12. One firing of the main loop puts the reading it takes
    into the history and its line at the end of the file of the
    reading's day: a reading is persisted in the firing that adds it,
    before a later one can overwrite its slot. *)
Theorem history_tick_persists_the_reading (long_bits : Z) (localtime : Z -> tm)
        (n : Z) (rs : list history_entry) (w : world) (h : history_table)
        (e : history_entry) :
  0 < n -> holds n rs h ->
  reading long_bits w = Ok e ->
  let lt := localtime (now w) in
  let name := history_file_name lt in
  name ∉ locked w ->
  exists w' h',
    history_tick long_bits localtime w h = (w', Ok h')
    /\ holds n (rs ++ [e]) h'
    /\ ts e = now w
    /\ files w' = <[name := default "" (files w !! name) +:+ csv_line lt e]> (files w).
Proof.
  intros Hn Hholds Hread lt name Hfree.
  destruct (history_tick_of_reading long_bits localtime n rs w h e Hn Hholds Hread
              Hfree) as (w' & h' & Htick & Hholds' & Hts & ->).
  by eexists _, h'.
Qed.

(** Property X12 on the empty [history] without the module loaded: the
    file of the day is created with the line of the reading. *)
Lemma history_tick_first_firing :
  let w := bare_world 1352466307 in
  0 < 48 /\ holds 48 [] history
  /\ exists e w' h',
      reading 64 w = Ok e
      /\ history_tick 64 example_localtime w history = (w', Ok h')
      /\ files w' !! example_file
         = Some (csv_line (example_localtime 1352466307) e)
      /\ count h' = 1.
Proof.
  intros w. split; [lia|]. split; [by apply holds_empty|].
  destruct (reading 64 w) as [e|] eqn:Hread; [|by vm_compute in Hread].
  destruct (history_tick_persists_the_reading 64 example_localtime 48 [] w history e
              ltac:(lia) (holds_empty 48 ltac:(lia)) Hread ltac:(set_solver))
    as (w' & h' & Htick & Hholds & _ & Hfiles).
  exists e, w', h'. split; [done|]. split; [done|]. split.
  - rewrite Hfiles. apply lookup_insert_eq.
  - by destruct Hholds as [_ _ -> _ _].
Defined.
End HistoryFiles.

(** ** The service: the replies *)

Section Replies.
Import CText Srf05Mod Srf05Web Bridge.











(** The length of the text of a history line. *)
Lemma history_line_text_length (first : bool) (lt : tm) (e : history_entry) :
  calendar lt ->
  String.length (history_line_text first lt e)
  = ((if first then 0 else 2) + 96 + String.length (fmt_d (draw e))
     + String.length (fmt_d (dcm e)) + (if (stat e =? 0)%Z then 5 else 11))%nat.
Proof.
  intros Hcal. unfold history_line_text, stat_label, quoted.
  rewrite !length_app_s, date_text_length, time_text_length by done.
  destruct first, (stat e =? 0); cbn [String.length str]; lia.
Qed.

(** Property X14. The handler builds each history object in the 128
    bytes of [histline]. For a calendar time stamp the object is whole
    exactly when the two distances together take at most 26 characters,
    less 2 for every object but the first (the separating comma) and
    less 6 for an entry that is OPERATIONAL (the longer label);
    otherwise [snprintf] cuts it, and 127 characters of it reach the
    reply. *)
Theorem history_line_whole_or_cut (first : bool) (lt : tm) (e : history_entry) :
  calendar lt ->
  let room :=
    (26 - (if first then 0 else 2) - (if (stat e =? 0)%Z then 0 else 6))%nat in
  let used :=
    (String.length (fmt_d (draw e)) + String.length (fmt_d (dcm e)))%nat in
  ((used <= room)%nat -> history_line first lt e = history_line_text first lt e)
  /\ ((room < used)%nat ->
      history_line first lt e <> history_line_text first lt e
      /\ String.length (history_line first lt e) = 127%nat).
Proof.
  intros Hcal room used. subst room used.
  pose proof (history_line_text_length first lt e Hcal) as Hlen.
  split.
  - intros Hfit. apply snprintf_fits.
    destruct first, (stat e =? 0); lia.
  - intros Hlong. split.
    + intros Heq%snprintf_whole; [|lia].
      destruct first, (stat e =? 0); lia.
    + unfold history_line. rewrite snprintf_cut_length; [done|].
      destruct first, (stat e =? 0); cbn [Nat.sub] in *; lia.
Qed.

(** Property X14 on the first object of a reply: whole for the example
    entry, cut for an OPERATIONAL entry whose two distances are the
    least 32-bit [long]. *)
Lemma history_line_cut_at_long_min :
  let lt := example_localtime 7 in
  let e := {| ts := 7; dcm := -2147483648; draw := -2147483648; stat := 1 |} in
  calendar lt
  /\ history_line true lt example_entry = history_line_text true lt example_entry
  /\ history_line true lt e <> history_line_text true lt e
  /\ String.length (history_line true lt e) = 127%nat.
Proof.
  intros lt e.
  assert (calendar lt) as Hcal.
  { vm_compute. repeat split; discriminate. }
  split; [exact Hcal|]. split.
  - apply (history_line_whole_or_cut true lt example_entry Hcal). vm_compute. lia.
  - apply (history_line_whole_or_cut true lt e Hcal). vm_compute. lia.
Defined.
End Replies.

(** ** The service: the main loop *)

Section MainLoop.
Import CText Srf05Mod Srf05Web Bridge Srf05Main Tables.
Variable long_bits : Z.
Variable localtime : Z -> tm.

(** The status file is none of the history files. *)
Lemma history_file_name_not_status (lt : tm) : history_file_name lt <> STATUS_FILE.
Proof.
  assert (exists s, history_file_name lt = String "/" (String "o" s)) as [s ->].
  { eexists. unfold history_file_name, history_file_text, snprintf, HISTORY_FILE_PATH.
    reflexivity. }
  unfold STATUS_FILE. discriminate.
Qed.

(** A firing in a serviceable environment leaves one. *)
Lemma history_tick_serviceable (rs : list history_entry) (w : world)
      (h : history_table) :
  holds MAX_HISTORY rs h -> serviceable w ->
  exists w' h' e,
    history_tick long_bits localtime w h = (w', Ok h')
    /\ holds MAX_HISTORY (rs ++ [e]) h'
    /\ serviceable w'.
Proof.
  intros Hholds [Hstatus Hfree].
  destruct (reading_returns long_bits w Hstatus) as [e Hread].
  destruct (history_tick_of_reading long_bits localtime MAX_HISTORY rs w h e ltac:(done) Hholds Hread)
    as (w' & h' & Htick & Hholds' & _ & ->).
  { rewrite Hfree. set_solver. }
  eexists _, h', e. split; [exact Htick|]. split; [done|].
  split; [|done]. unfold fopen_r in *. cbn [files set_files].
  rewrite lookup_insert_ne by apply history_file_name_not_status. done.
Qed.

(** The loop from a state with [loopcnt] at [c]: over rounds without
    SIGINT it fires whenever the counter has reached [HISTORY_INTERVAL],
    which takes [HISTORY_INTERVAL + 1] rounds from 0. *)
Lemma main_loop_schedule (rounds : list second) :
  Forall (fun r => sigint r = false
                   /\ forall w, serviceable w -> serviceable (outside r w)) rounds ->
  forall (p : process) (rs : list history_entry),
    interrupted p = 0 -> 0 <= loopcnt p <= HISTORY_INTERVAL ->
    serviceable (env p) -> holds MAX_HISTORY rs (table p) ->
    exists p' rs',
      main_loop long_bits localtime rounds p = Running p'
      /\ interrupted p' = 0
      /\ serviceable (env p')
      /\ holds MAX_HISTORY (rs ++ rs') (table p')
      /\ Z.of_nat (length rs')
         = (loopcnt p + Z.of_nat (length rounds)) / (HISTORY_INTERVAL + 1)
      /\ loopcnt p'
         = (loopcnt p + Z.of_nat (length rounds)) mod (HISTORY_INTERVAL + 1).
Proof.
  unfold HISTORY_INTERVAL.
  induction 1 as [|r rounds [Hsig Hout] _ IH]; intros p rs Hint Hcnt Henv Hholds.
  { exists p, []. rewrite app_nil_r. cbn [main_loop length].
    change (Z.of_nat 0) with 0. rewrite Z.add_0_r.
    split; [done|]. split; [done|]. split; [done|]. split; [done|]. split.
    - symmetry. apply Z.div_small. lia.
    - symmetry. apply Z.mod_small. lia. }
  cbn [main_loop]. rewrite Hsig, Hint. cbn [Z.eqb].
  rewrite Z.geb_leb.
  destruct (Z.leb_spec HISTORY_INTERVAL (loopcnt p)) as [Hfire|Hwait];
    unfold HISTORY_INTERVAL in Hfire || unfold HISTORY_INTERVAL in Hwait.
  - destruct (history_tick_serviceable rs (outside r (env p)) (table p) Hholds
                (Hout _ Henv)) as (w' & h' & e & -> & Hholds' & Henv').
    destruct (IH {| interrupted := 0; loopcnt := 0; env := w'; table := h' |}
                (rs ++ [e]) eq_refl ltac:(cbn; lia) Henv' Hholds')
      as (p' & rs' & -> & Hint' & Henv'' & Hholds'' & Hlen & Hcnt').
    cbn [loopcnt] in Hlen, Hcnt'.
    exists p', (e :: rs'). split; [done|]. split; [done|]. split; [done|].
    split; [by rewrite <- (assoc_L (++)) in Hholds''|].
    cbn [length]. rewrite !Nat2Z.inj_succ.
    replace (loopcnt p + Z.succ (Z.of_nat (length rounds)))
      with (0 + Z.of_nat (length rounds) + 1 * (3600 + 1)) by lia.
    rewrite Z.div_add, Z.mod_add by lia. lia.
  - destruct (IH {| interrupted := 0; loopcnt := loopcnt p + 1;
                    env := outside r (env p); table := table p |}
                rs eq_refl ltac:(cbn; lia) (Hout _ Henv) Hholds)
      as (p' & rs' & -> & Hint' & Henv'' & Hholds'' & Hlen & Hcnt').
    cbn [loopcnt] in Hlen, Hcnt'.
    exists p', rs'. split; [done|]. split; [done|]. split; [done|].
    split; [done|]. cbn [length]. rewrite !Nat2Z.inj_succ.
    replace (loopcnt p + Z.succ (Z.of_nat (length rounds)))
      with (loopcnt p + 1 + Z.of_nat (length rounds)) by lia.
    done.
Qed.

(** Property X15. Started in a serviceable environment that stays so,
    [main] neither returns nor faults as long as no SIGINT arrives. It
    takes the first reading in the first round of its loop and then one
    every [HISTORY_INTERVAL + 1] rounds: [loopcnt] is compared before it
    is incremented, so it counts from 0 up to [HISTORY_INTERVAL]
    inclusive between two readings. *)
Theorem main_reads_every_3601_rounds (rounds : list second) (w : world) :
  serviceable w ->
  Forall (fun r => sigint r = false
                   /\ forall w, serviceable w -> serviceable (outside r w)) rounds ->
  exists p rs,
    main long_bits localtime 0 rounds w = Running p
    /\ holds MAX_HISTORY rs (table p)
    /\ Z.of_nat (length rs)
       = (Z.of_nat (length rounds) + HISTORY_INTERVAL) / (HISTORY_INTERVAL + 1)
    /\ loopcnt p
       = (Z.of_nat (length rounds) + HISTORY_INTERVAL) mod (HISTORY_INTERVAL + 1).
Proof.
  intros Henv Hrounds. unfold main. cbn [Z.eqb negb].
  destruct (main_loop_schedule rounds Hrounds
              {| interrupted := 0; loopcnt := HISTORY_INTERVAL;
                 env := w; table := history |} []
              eq_refl ltac:(cbn; unfold HISTORY_INTERVAL; lia) Henv
              (holds_empty MAX_HISTORY ltac:(done)))
    as (p & rs & Hrun & _ & _ & Hholds & Hlen & Hcnt).
  cbn [loopcnt] in Hlen, Hcnt. rewrite Z.add_comm in Hlen, Hcnt.
  by exists p, rs.
Qed.

(** Property X16. SIGINT ends the loop at its next test: [main] returns 0
    with the table and the files as the rounds before left them, and
    nothing that would have happened in later rounds happens. *)
Theorem sigint_ends_main (rounds rest : list second) (r : second)
        (w : world) (p : process) :
  main long_bits localtime 0 rounds w = Running p ->
  sigint r = true ->
  main long_bits localtime 0 (rounds ++ r :: rest) w = Returned 0 (sig_handler p).
Proof.
  unfold main. cbn [Z.eqb negb]. intros Hrun Hsig. revert Hrun.
  generalize {| interrupted := 0; loopcnt := HISTORY_INTERVAL; env := w;
                table := history |}.
  induction rounds as [|r' rounds IH]; intros q.
  { intros [= ->]. cbn [app main_loop]. rewrite Hsig. reflexivity. }
  cbn [app main_loop].
  destruct (interrupted (if sigint r' then sig_handler q else q) =? 0); [|done].
  destruct (loopcnt _ >=? HISTORY_INTERVAL); [|by apply IH].
  destruct (history_tick _ _ _ _) as [w' [h'|f]]; [by apply IH|done].
Qed.
End MainLoop.

(** Property X15 over 3602 quiet rounds without the module loaded: the
    second reading is taken in the last of them. *)
Lemma main_second_reading_in_round_3602 :
  let rounds := replicate (Z.to_nat 3602) Srf05Main.quiet in
  Srf05Main.serviceable (Bridge.bare_world 0)
  /\ Forall (fun r => Srf05Main.sigint r = false
                      /\ forall w, Srf05Main.serviceable w
                                   -> Srf05Main.serviceable (Srf05Main.outside r w)) rounds
  /\ exists p rs,
      Srf05Main.main 64 Bridge.example_localtime 0 rounds (Bridge.bare_world 0)
      = Srf05Main.Running p
      /\ Srf05Web.holds Srf05Web.MAX_HISTORY rs (Srf05Main.table p)
      /\ length rs = 2%nat /\ Srf05Main.loopcnt p = 0.
Proof.
  intros rounds.
  assert (Srf05Main.serviceable (Bridge.bare_world 0)) as Henv.
  { split; [by left|done]. }
  assert (Forall (fun r => Srf05Main.sigint r = false
                           /\ forall w, Srf05Main.serviceable w
                                        -> Srf05Main.serviceable (Srf05Main.outside r w))
            rounds) as Hrounds.
  { apply Forall_replicate. by split. }
  split; [exact Henv|]. split; [exact Hrounds|].
  destruct (main_reads_every_3601_rounds 64 Bridge.example_localtime rounds
              (Bridge.bare_world 0) Henv Hrounds) as (p & rs & Hrun & Hholds & Hlen & Hcnt).
  exists p, rs. split; [exact Hrun|]. split; [exact Hholds|].
  subst rounds. rewrite length_replicate, Z2Nat.id in Hlen, Hcnt by lia.
  change ((3602 + Srf05Web.HISTORY_INTERVAL) / (Srf05Web.HISTORY_INTERVAL + 1))
    with 2 in Hlen.
  change ((3602 + Srf05Web.HISTORY_INTERVAL) mod (Srf05Web.HISTORY_INTERVAL + 1))
    with 0 in Hcnt.
  split; [lia|exact Hcnt].
Defined.

(** Property X16 with SIGINT in the second round: the reading of the
    first round is in the table, and [main] returns 0. *)
Lemma sigint_in_second_round :
  exists p,
    Srf05Main.main 64 Bridge.example_localtime 0 [Srf05Main.quiet]
      (Bridge.bare_world 0) = Srf05Main.Running p
    /\ Srf05Main.sigint Srf05Main.signalled = true
    /\ Srf05Main.main 64 Bridge.example_localtime 0
         [Srf05Main.quiet; Srf05Main.signalled; Srf05Main.quiet]
         (Bridge.bare_world 0)
       = Srf05Main.Returned 0 (Srf05Main.sig_handler p)
    /\ Srf05Web.count (Srf05Main.table p) = 1.
Proof.
  destruct (Srf05Main.main 64 Bridge.example_localtime 0 [Srf05Main.quiet]
              (Bridge.bare_world 0)) as [ret p|p|f w] eqn:Hrun;
    [by vm_compute in Hrun| |by vm_compute in Hrun].
  exists p. split; [reflexivity|]. split; [reflexivity|]. split.
  - exact (sigint_ends_main 64 Bridge.example_localtime [Srf05Main.quiet]
             [Srf05Main.quiet] Srf05Main.signalled (Bridge.bare_world 0) p Hrun eq_refl).
  - vm_compute in Hrun. injection Hrun as <-. reflexivity.
Defined.
